(** * crypto_auto_tracker: the scrape-to-records pipeline and the analysis engine

    A shallow embedding of [crypto_auto_tracker.py].  Numbers are IEEE-754
    binary64 values (Rocq's primitive [float], the type Python's [float] and
    pandas' [float64] columns share); cell text is a [string] whose
    characters are the code points 0..255 (the table cells of the page are
    ASCII text, at most with a no-break space); Python exceptions are values
    of [exn] threaded through the error monad [res]. *)

From Stdlib Require Import ZArith List String Ascii Bool Lia Floats Uint63.
From Stdlib Require Import QArith Qfield DecimalString.
Import ListNotations.

Set Warnings "-inexact-float".

Local Open Scope Z_scope.
Local Open Scope string_scope.

(** ** Python runtime: exceptions, objects, [str] methods, [float(str)] *)

Module Py.

(** The exception classes the modelled operations can raise.  All of them
    derive from [Exception]. *)
Inductive exn : Type :=
| ValueError
| TypeError
| IndexError
| KeyError
| NoSuchElementException
| StaleElementReferenceException
| WebDriverException.

Inductive res (A : Type) : Type :=
| Ok (a : A)
| Raise (e : exn).

Arguments Ok {A} a.
Arguments Raise {A} e.

Definition bind {A B : Type} (c : res A) (k : A -> res B) : res B :=
  match c with
  | Ok a => k a
  | Raise e => Raise e
  end.

(** [try: c  except ...: handler]; the handler re-raises what its [except]
    clause does not list. *)
Definition try_except {A : Type} (c : res A) (handler : exn -> res A) : res A :=
  match c with
  | Ok a => Ok a
  | Raise e => handler e
  end.

(** The objects a caller can hand to a function that takes "anything". *)
Inductive pyobj : Type :=
| PyNone
| PyBool (b : bool)
| PyInt (z : Z)
| PyFloat (f : float)
| PyStr (s : string).

(** [isinstance(o, str)] *)
Definition is_str (o : pyobj) : bool :=
  match o with
  | PyStr _ => true
  | _ => false
  end.

(** *** [str] methods *)

(** [c in s] for a one-character [c]. *)
Fixpoint contains (c : ascii) (s : string) : bool :=
  match s with
  | EmptyString => false
  | String a s' => if Ascii.eqb a c then true else contains c s'
  end.

(** [s.replace(c, '')] for a one-character [c]: every occurrence goes. *)
Fixpoint remove (c : ascii) (s : string) : string :=
  match s with
  | EmptyString => EmptyString
  | String a s' => if Ascii.eqb a c then remove c s' else String a (remove c s')
  end.

(** [str.isspace] on one character: tab, line feed, vertical tab, form
    feed, carriage return, the four separators 0x1c..0x1f, space, next line
    (0x85) and no-break space (0xa0). *)
Definition is_space (a : ascii) : bool :=
  let n := N_of_ascii a in
  ((9 <=? n) && (n <=? 13) || (28 <=? n) && (n <=? 32) ||
   (n =? 133) || (n =? 160))%N.

(** The whitespace [float(str)] drops at both ends: C's [Py_ISSPACE], after
    the two spaces above 0x7f have been turned into blanks.  The separators
    0x1c..0x1f are not in it. *)
Definition is_c_space (a : ascii) : bool :=
  let n := N_of_ascii a in
  ((9 <=? n) && (n <=? 13) || (n =? 32) || (n =? 133) || (n =? 160))%N.

Fixpoint lstrip (sp : ascii -> bool) (s : string) : string :=
  match s with
  | EmptyString => EmptyString
  | String a s' => if sp a then lstrip sp s' else s
  end.

(** Drops the trailing run of [sp] characters. *)
Fixpoint rstrip (sp : ascii -> bool) (s : string) : string :=
  match s with
  | EmptyString => EmptyString
  | String a s' =>
      match rstrip sp s' with
      | EmptyString => if sp a then EmptyString else String a EmptyString
      | r => String a r
      end
  end.

(** [s.strip()] *)
Definition strip (s : string) : string := rstrip is_space (lstrip is_space s).

(** *** [float(str)] *)

Definition digit_of (a : ascii) : option Z :=
  let n := Z.of_N (N_of_ascii a) in
  if ((48 <=? n) && (n <=? 57))%Z then Some (n - 48) else None.

Definition is_digit (a : ascii) : bool :=
  match digit_of a with Some _ => true | None => false end.

(** The underscore rule of numeric literals: an underscore stands only
    between two digits.  [prev] is the character before [s]. *)
Fixpoint strip_underscores (prev : option ascii) (s : string) : option string :=
  match s with
  | EmptyString =>
      match prev with
      | Some "_"%char => None
      | _ => Some EmptyString
      end
  | String a s' =>
      if Ascii.eqb a "_" then
        match prev with
        | Some p => if is_digit p then strip_underscores (Some a) s' else None
        | None => None
        end
      else
        match prev with
        | Some "_"%char =>
            if is_digit a
            then option_map (String a) (strip_underscores (Some a) s')
            else None
        | _ => option_map (String a) (strip_underscores (Some a) s')
        end
  end.

(** Reads a run of decimal digits: the mantissa so far extended by them,
    how many were read, and the rest of the text. *)
Fixpoint read_digits (s : string) (acc : Z) (n : Z) : Z * Z * string :=
  match s with
  | EmptyString => (acc, n, s)
  | String a s' =>
      match digit_of a with
      | Some d => read_digits s' (10 * acc + d) (n + 1)
      | None => (acc, n, s)
      end
  end.

Definition read_sign (s : string) : bool * string :=
  match s with
  | String "-" s' => (true, s')
  | String "+" s' => (false, s')
  | _ => (false, s)
  end.

(** The exponent part.  A marker with no digit after it is not an exponent:
    the text is then left where it was. *)
Definition read_exponent (s : string) : Z * string :=
  match s with
  | String c s1 =>
      if Ascii.eqb c "e" || Ascii.eqb c "E" then
        let '(neg, s2) := read_sign s1 in
        let '(e, n, s3) := read_digits s2 0 0 in
        if (n =? 0)%Z then (0, s) else ((if neg then - e else e), s3)
      else (0, s)
  | EmptyString => (0, s)
  end.

(** The nearest binary64 value (ties to even) of [m * 10 ^ e10], for
    [m >= 0].  Outside the exponents a binary64 value can have the answer is
    known without computing the power; inside, a negative exponent is a
    division carried out on integers, with a sticky bit below 65 quotient
    bits so that the one rounding of [binary_normalize] is the only one. *)
Definition dec2float (m e10 : Z) : float :=
  if (m =? 0)%Z then PrimFloat.zero
  else
    let nd := Z.log2 m / 3 + 1 in
    if (400 <? e10)%Z then PrimFloat.infinity
    else if (e10 + nd <? -330)%Z then PrimFloat.zero
    else if (0 <=? e10)%Z then
      SF2Prim (binary_normalize prec emax (m * 10 ^ e10) 0 false)
    else
      let d := 10 ^ (- e10) in
      let sh := Z.max 0 (Z.log2 d - Z.log2 m + 66) in
      let n := m * 2 ^ sh in
      let q := 2 * (n / d) + (if (n mod d =? 0)%Z then 0 else 1) in
      SF2Prim (binary_normalize prec emax q (- (sh + 1)) false).

Definition lower (a : ascii) : ascii :=
  let n := N_of_ascii a in
  if ((65 <=? n) && (n <=? 90))%N then ascii_of_N (n + 32) else a.

Fixpoint lower_string (s : string) : string :=
  match s with
  | EmptyString => EmptyString
  | String a s' => String (lower a) (lower_string s')
  end.

(** [inf], [infinity] and [nan], in any case. *)
Definition parse_inf_or_nan (s : string) : option float :=
  let l := lower_string s in
  if String.eqb l "inf" || String.eqb l "infinity" then Some PrimFloat.infinity
  else if String.eqb l "nan" then Some PrimFloat.nan
  else None.

(** A decimal number: digits with an optional point, at least one digit,
    and an optional exponent; nothing may follow. *)
Definition parse_decimal (s : string) : option float :=
  let '(m1, n1, s1) := read_digits s 0 0 in
  let '(m2, n2, s2) :=
    match s1 with
    | String "." t => read_digits t m1 0
    | _ => (m1, 0, s1)
    end in
  if (n1 + n2 =? 0)%Z then None
  else
    let '(e, s3) := read_exponent s2 in
    match s3 with
    | EmptyString => Some (dec2float m2 (e - n2))
    | _ => None
    end.

(** [float(s)] for a [str] argument: a [ValueError] is the only exception
    it raises. *)
Definition float_of_str (s : string) : res float :=
  let cleaned := if contains "_" s then strip_underscores None s else Some s in
  match cleaned with
  | None => Raise ValueError
  | Some t =>
      let t := rstrip is_c_space (lstrip is_c_space t) in
      let '(neg, body) := read_sign t in
      let v :=
        match parse_decimal body with
        | Some x => Some x
        | None => parse_inf_or_nan body
        end in
      match v with
      | Some x => Ok (if neg then (- x)%float else x)
      | None => Raise ValueError
      end
  end.

(** [float * int]: the integer operand is converted to binary64 first
    (exactly, for the multipliers used here). *)
Definition float_mul_int (x : float) (n : Z) : float :=
  (x * PrimFloat.of_uint63 (Uint63.of_Z n))%float.

End Py.

Notation "x <- c ;; k" := (Py.bind c (fun x => k))
  (at level 61, c at next level, right associativity).

(** ** The tracker *)

Module Tracker.
Import Py.

Local Open Scope list_scope.
Local Open Scope float_scope.

(** *** Configuration *)

Definition TOP_N : nat := 20.

(** An integer literal (or a row count) where a binary64 operand is
    expected; exact below 2^53. *)
Definition int_to_float (n : Z) : float := PrimFloat.of_uint63 (Uint63.of_Z n).

(** *** [clean_numeric_text] *)

(** The [if 'T' in text / elif 'B' / elif 'M'] chain: the multiplier and the
    text with every occurrence of the matched letter removed. *)
Definition split_multiplier (text : string) : Z * string :=
  if contains "T" text then (1000000000000%Z, remove "T" text)
  else if contains "B" text then (1000000000%Z, remove "B" text)
  else if contains "M" text then (1000000%Z, remove "M" text)
  else (1%Z, text).

(** Line 37: the dollar signs, commas and percent signs go, then the
    whitespace at both ends. *)
Definition strip_symbols (text : string) : string :=
  strip (remove "%" (remove "," (remove "$" text))).

Definition clean_numeric_text (text : pyobj) : res (option float) :=
  match text with
  | PyStr text =>
      let text := strip_symbols text in
      let '(multiplier, text) := split_multiplier text in
      try_except
        (x <- float_of_str text ;; Ok (Some (float_mul_int x multiplier)))
        (fun e =>
           match e with
           | ValueError | TypeError => Ok None
           | _ => Raise e
           end)
  | _ => Ok None
  end.

(** *** [get_top_cryptos]: rows to records *)

(** A [td] element as the loop reads it: its [.text], and the [.text] of the
    first [p.coin-item-symbol] below it.  Either lookup can raise (no such
    element, stale element, ...); the exceptions are those of [exn], all
    caught by [except Exception]. *)
Record cell : Type := {
  text : res string;
  coin_item_symbol : res string
}.

(** [row.find_elements(By.TAG_NAME, 'td')] for one [tr] of the table
    (line 89): the cells, or the exception the lookup raises (a row gone
    stale while the page redraws, a lost session).  The call stands before
    the inner [try]. *)
Definition row : Type := res (list cell).

(** One dictionary appended to [crypto_data]. *)
Record record : Type := {
  Name : string;
  PriceUSD : option float;
  Change24h_Percent : option float;
  MarketCapUSD : option float
}.

(** [cols[i]] *)
Definition getitem {A : Type} (l : list A) (i : nat) : res A :=
  match nth_error l i with
  | Some a => Ok a
  | None => Raise IndexError
  end.

(** The body of the inner [try]. *)
Definition parse_row (cols : list cell) : res record :=
  c2 <- getitem cols 2 ;;
  name <- coin_item_symbol c2 ;;
  c3 <- getitem cols 3 ;;
  t3 <- text c3 ;;
  price <- clean_numeric_text (PyStr t3) ;;
  c5 <- getitem cols 5 ;;
  t5 <- text c5 ;;
  change_24h <- clean_numeric_text (PyStr t5) ;;
  c7 <- getitem cols 7 ;;
  t7 <- text c7 ;;
  market_cap <- clean_numeric_text (PyStr t7) ;;
  Ok {| Name := name; PriceUSD := price;
        Change24h_Percent := change_24h; MarketCapUSD := market_cap |}.

(** One turn of [for row in rows] once the cells are there, lines 90 to
    110: [continue] on a short row, [continue] from [except Exception],
    otherwise append. *)
Definition row_step (crypto_data : list record) (cols : list cell)
  : res (list record) :=
  if (List.length cols <? 9)%nat then Ok crypto_data
  else
    try_except
      (r <- parse_row cols ;; Ok (crypto_data ++ [r]))
      (fun _ => Ok crypto_data).

(** [for row in rows], lines 88 to 110.  An exception of line 89 is not
    caught here: it leaves the loop. *)
Fixpoint for_rows (rows : list row) (crypto_data : list record) : res (list record) :=
  match rows with
  | [] => Ok crypto_data
  | row :: rest =>
      cols <- row ;;
      d <- row_step crypto_data cols ;;
      for_rows rest d
  end.

(** One run of the browser as [get_top_cryptos] meets it.  Either no driver
    comes up ([Options], [Service] or [webdriver.Chrome] raises and [driver]
    stays [None]), or there is one, and then: [page] is what lines 75 to 84
    give, the [tr] elements of the table or the exception raised on the way
    (the page load, the two waits, the lookup); [save_screenshot] is what
    [driver.save_screenshot] does when the handler calls it, and [quit] what
    [driver.quit] does in the [finally] clause. *)
Inductive session : Type :=
| NoDriver (e : exn)
| Driver (page : res (list row)) (save_screenshot quit : res unit).

(** [try: c  finally: f]: [f] runs in either case; when it raises, its
    exception is the one that leaves. *)
Definition finally {A : Type} (c : res A) (f : res unit) : res A :=
  match f with
  | Ok _ => c
  | Raise e => Raise e
  end.

(** The outer [except Exception] answers with an empty frame, after the
    screenshot when there is a driver. *)
Definition get_top_cryptos (s : session) : res (list record) :=
  match s with
  | NoDriver _ => Ok []
  | Driver page save_screenshot quit =>
      finally
        (try_except
           (trs <- page ;;
            let rows := firstn TOP_N trs in
            for_rows rows [])
           (fun _ => shot <- save_screenshot ;; Ok []))
        quit
  end.

(** *** Frames for analysis *)

(** A row of [analysis_data]: the three numeric columns hold numbers. *)
Record coin : Type := {
  coin_name : string;
  price : float;
  change : float;
  cap : float
}.

(** A value [dropna] keeps: present and not NaN. *)
Definition notna (x : option float) : option float :=
  match x with
  | Some f => if PrimFloat.is_nan f then None else Some f
  | None => None
  end.

Definition qualify (r : record) : option coin :=
  match notna (Change24h_Percent r), notna (PriceUSD r), notna (MarketCapUSD r) with
  | Some c, Some p, Some m =>
      Some {| coin_name := Name r; price := p; change := c; cap := m |}
  | _, _, _ => None
  end.

(** [data.dropna(subset=['Change24h_Percent', 'PriceUSD', 'MarketCapUSD'])] *)
Fixpoint dropna (data : list record) : list coin :=
  match data with
  | [] => []
  | r :: rest =>
      match qualify r with
      | Some c => c :: dropna rest
      | None => dropna rest
      end
  end.

(** *** Column reductions *)

Definition fillna (v x : float) : float := if PrimFloat.is_nan x then v else x.

(** The entries [skipna] leaves. *)
Definition notnan (l : list float) : list float :=
  filter (fun x => negb (PrimFloat.is_nan x)) l.

(** pandas hands its sums to numpy, whose [add.reduce] over a float64
    array is the pairwise summation of [DOUBLE_pairwise_sum]:

    - fewer than eight entries are added one after the other, from [-0.0];
    - up to 128 entries are added in eight lanes: lane [j] starts with
      entry [j] and takes entry [8 k + j] of every further full block of
      eight, the lanes are then added as
      [((r0 + r1) + (r2 + r3)) + ((r4 + r5) + (r6 + r7))], and the entries
      after the last full block are added to that one by one;
    - a longer array is cut at half its length, rounded down to a multiple
      of eight, and the sums of the two parts are added. *)
Definition add_lanes (r a : list float) : list float :=
  map (fun '(x, y) => x + y) (combine r a).

(** [k] further blocks of eight added to the lanes [r]; what is left of
    the array comes back with them. *)
Fixpoint add_blocks (k : nat) (r a : list float) : list float * list float :=
  match k with
  | O => (r, a)
  | S k' => add_blocks k' (add_lanes r (firstn 8 a)) (skipn 8 a)
  end.

Definition lane (r : list float) (j : nat) : float := nth j r 0.

(** The branches below 129 entries. *)
Definition block_sum (a : list float) : float :=
  let n := List.length a in
  if (n <? 8)%nat then fold_left PrimFloat.add a (-0)
  else
    let '(r, rest) := add_blocks (n / 8 - 1) (firstn 8 a) (skipn 8 a) in
    let res := ((lane r 0 + lane r 1) + (lane r 2 + lane r 3)) +
               ((lane r 4 + lane r 5) + (lane r 6 + lane r 7)) in
    fold_left PrimFloat.add rest res.

(** The recursion on the halves; [fuel] bounds its depth, and the length
    of the array is always enough ([pairwise_sum_halves] below). *)
Fixpoint pairwise_sum_rec (fuel : nat) (a : list float) {struct fuel} : float :=
  let n := List.length a in
  if (n <=? 128)%nat then block_sum a
  else
    match fuel with
    | O => block_sum a
    | S fuel' =>
        let n2 := (n / 2 - (n / 2) mod 8)%nat in
        pairwise_sum_rec fuel' (firstn n2 a) + pairwise_sum_rec fuel' (skipn n2 a)
    end.

Definition pairwise_sum (a : list float) : float :=
  pairwise_sum_rec (List.length a) a.

(** [a.sum()] for a one-dimensional float64 array: the reduction starts
    from the identity [0.0] and adds the pairwise sum to it. *)
Definition np_sum (a : list float) : float := 0 + pairwise_sum a.

(** [Series.sum()] ([nanops.nansum], [skipna=True]): the NaN entries are
    set to zero where they stand, and the array is summed. *)
Definition series_sum (l : list float) : float := np_sum (map (fillna 0) l).

(** The number of entries that are not NaN, as the float64 it is turned
    into. *)
Definition count (l : list float) : float :=
  int_to_float (Z.of_nat (List.length (notnan l))).

(** [Series.mean()] ([nanops.nanmean]): [the_sum / count if count > 0 else
    np.nan]. *)
Definition mean (l : list float) : float :=
  if 0 <? count l then series_sum l / count l else PrimFloat.nan.

(** [Series.std()] ([nanops.nanstd], [ddof=1], without the optional
    bottleneck package): the square root of [nanvar].  With at most one
    number both the count and the divisor are NaN; otherwise the mean is
    taken with the NaN entries at zero, and the squares of the distances
    to it are summed, those of the NaN entries set to zero.  Nothing else
    is masked: a NaN that the subtraction makes (of two infinities) stays
    in the sum. *)
Definition std (l : list float) : float :=
  let n := List.length (notnan l) in
  let count := if (n <=? 1)%nat then PrimFloat.nan else int_to_float (Z.of_nat n) in
  let d := if (n <=? 1)%nat then PrimFloat.nan else int_to_float (Z.of_nat n) - 1 in
  let avg := np_sum (map (fillna 0) l) / count in
  let sqr := map (fun x => if PrimFloat.is_nan x then 0 else (avg - x) * (avg - x)) l in
  PrimFloat.sqrt (np_sum sqr / d).

(** [Series.min()] and [Series.max()]: the smallest and the largest of the
    entries that are not NaN, and NaN when there is none.  (Of a positive
    and a negative zero either may come back; they compare equal.) *)
Definition series_min (l : list float) : float :=
  match notnan l with
  | [] => PrimFloat.nan
  | x :: rest => fold_left (fun m y => if y <? m then y else m) rest x
  end.

Definition series_max (l : list float) : float :=
  match notnan l with
  | [] => PrimFloat.nan
  | x :: rest => fold_left (fun m y => if m <? y then y else m) rest x
  end.

(** Position of the first largest entry from [i] on, [bi] holding the
    largest entry [bv] before [i]. *)
Fixpoint argmax_from (l : list float) (i bi : nat) (bv : float) : nat :=
  match l with
  | [] => bi
  | x :: rest =>
      if bv <? x then argmax_from rest (S i) i x else argmax_from rest (S i) bi bv
  end.

(** The installed pandas.  The program names no version, and the two
    release lines differ in one place it reaches: [idxmax] and [idxmin] of
    a column that holds NaN only. *)
Inductive pandas : Type :=
| pandas_2   (* 1.x and 2.x *)
| pandas_3.  (* 3.0 and later *)

(** [s.idxmax()]: NaN entries are skipped, the first maximum wins, and the
    answer is the label of its row.  An empty column raises [ValueError].
    For a column of NaN only, pandas up to 2.x answers NaN, which is no
    label of the frame ([None] here), and pandas 3 raises [ValueError]. *)
Definition idxmax (pd : pandas) (l : list float) : res (option nat) :=
  match l with
  | [] => Raise ValueError
  | x :: rest =>
      if forallb PrimFloat.is_nan l then
        match pd with
        | pandas_2 => Ok None
        | pandas_3 => Raise ValueError
        end
      else
        Ok (Some (argmax_from (map (fillna PrimFloat.neg_infinity) rest) 1 0
                    (fillna PrimFloat.neg_infinity x)))
  end.

(** [s.idxmin()] *)
Definition idxmin (pd : pandas) (l : list float) : res (option nat) :=
  idxmax pd (map PrimFloat.opp l).

(** [df.loc[label]] for what [idxmax] or [idxmin] returned: [KeyError] for
    the NaN that is no label. *)
Definition loc (df : list coin) (label : option nat) : res coin :=
  match label with
  | Some i =>
      match nth_error df i with
      | Some c => Ok c
      | None => Raise KeyError
      end
  | None => Raise KeyError
  end.

(** *** Terminal output *)

(** One projection row: the horizon and the three formatted growth cells,
    in the order of [scenarios]. *)
Record projection_row : Type := {
  Timeframe : Z;
  Growth : list (string * string)
}.

(** What the functions print, one constructor per [print] that shows a
    computed value. *)
Inductive line : Type :=
| IncompleteData
| ScrapedData (data : list record)
| Sentiment (sentiment : string) (avg_change : float)
| HighestPrice (c : coin)
| LowestPrice (c : coin)
| Volatility (volatility : float)
| WeightedSentiment (weighted_sentiment : string) (weighted_avg_change : float)
| CapTiers (large_cap mid_cap small_cap : nat)
| SummaryDetails (max_names min_names : string * string * string)
| Recommendation (rec_name : string) (change_24h : float)
| Projections (table : list projection_row)
| SavedToCsv (rows : nat)
| UnexpectedError (e : exn).

(** Printing and raising together: what was printed so far, and how the
    computation ended. *)
Definition io (A : Type) : Type := list line * res A.

Definition print (l : line) : io unit := ([l], Ok tt).

Definition lift {A : Type} (r : res A) : io A := ([], r).

Definition io_bind {A B : Type} (c : io A) (k : A -> io B) : io B :=
  match c with
  | (out, Ok a) => let '(out', r) := k a in (out ++ out', r)
  | (out, Raise e) => (out, Raise e)
  end.

Notation "x <~ c ;; k" := (io_bind c (fun x => k))
  (at level 61, c at next level, right associativity).
Notation "c ;;; k" := (io_bind c (fun _ => k))
  (at level 61, right associativity).

Definition Bullish : string := "Bullish 🐂".
Definition Bearish : string := "Bearish 🐻".

(** *** [f"{x:,.2f}"] *)

(** [num / den] rounded to the nearest integer, ties to even. *)
Definition round_half_even (num den : Z) : Z :=
  let q := (num / den)%Z in
  match (2 * (num mod den) ?= den)%Z with
  | Lt => q
  | Gt => (q + 1)%Z
  | Eq => if Z.even q then q else (q + 1)%Z
  end.

Definition digits (n : Z) : string :=
  DecimalString.NilZero.string_of_uint (N.to_uint (Z.to_N n)).

(** The [,] option: a comma before every group of three digits. *)
Fixpoint commas (s : string) : string :=
  match s with
  | EmptyString => EmptyString
  | String a s' =>
      let r := String.length s' in
      if ((0 <? r) && (r mod 3 =? 0))%nat
      then String a (String "," (commas s'))
      else String a (commas s')
  end.

Definition two_digits (n : Z) : string :=
  if (n <? 10)%Z then String "0" (digits n) else digits n.

(** The exact binary value rounded once to two decimals. *)
Definition format_2f (x : float) : string :=
  match Prim2SF x with
  | S754_nan => "nan"
  | S754_infinity s => if s then "-inf" else "inf"
  | S754_zero s => if s then "-0.00" else "0.00"
  | S754_finite s m e =>
      let n :=
        match e with
        | Zneg k => round_half_even (Zpos m * 100) (2 ^ Zpos k)
        | _ => (Zpos m * 100 * 2 ^ e)%Z
        end in
      ((if s then "-" else "") ++
       commas (digits (n / 100)) ++ "." ++ two_digits (n mod 100))%string
  end.

(** *** The projection arithmetic, over any numbers *)

(** [x ** n] on binary64 for an [int] exponent [n]: the C library's [pow],
    taken as the exact power rounded once to nearest (which is what it
    returns on the bases and horizons of the projection). *)
Definition float_pow (x : float) (n : nat) : float :=
  match n with
  | O => 1
  | _ =>
      match Prim2SF x with
      | S754_nan => PrimFloat.nan
      | S754_zero s => if s && Nat.odd n then PrimFloat.neg_zero else 0
      | S754_infinity s =>
          if s && Nat.odd n then PrimFloat.neg_infinity else PrimFloat.infinity
      | S754_finite s m e =>
          let r :=
            SF2Prim (binary_normalize prec emax
                       (Zpos m ^ Z.of_nat n) (e * Z.of_nat n) false) in
          if s && Nat.odd n then - r else r
      end
  end.

(** The operations the projection uses.  The code runs them on binary64
    values; the rationals are the same formulas without rounding. *)
Class Num (N : Type) : Type := {
  n_add : N -> N -> N;
  n_sub : N -> N -> N;
  n_mul : N -> N -> N;
  n_div : N -> N -> N;
  n_pow : N -> nat -> N;
  n_int : Z -> N;
  (** the decimal literal [m * 10 ^ (- d)], written with [d] decimals *)
  n_dec : Z -> Z -> N
}.

#[export] Instance float_Num : Num float := {
  n_add := PrimFloat.add;
  n_sub := PrimFloat.sub;
  n_mul := PrimFloat.mul;
  n_div := PrimFloat.div;
  n_pow := float_pow;
  n_int := int_to_float;
  n_dec := fun m d => dec2float m (- d)
}.

#[export] Instance Q_Num : Num Q := {
  n_add := Qplus;
  n_sub := Qminus;
  n_mul := Qmult;
  n_div := Qdiv;
  n_pow := fun x n => Qpower x (Z.of_nat n);
  n_int := inject_Z;
  n_dec := fun m d => (inject_Z m / inject_Z (10 ^ d))%Q
}.

Section Projection.
Context {N : Type} {num : Num N}.

(** Lines 237 and 238. *)
Definition future_price (price rate : N) (year : nat) : N :=
  n_mul price (n_pow (n_add (n_int 1) rate) year).

Definition growth_percent (price rate : N) (year : nat) : N :=
  n_mul (n_div (n_sub (future_price price rate year) price) price) (n_int 100).

(** The closed form [((1 + rate) ** year - 1) * 100]. *)
Definition compound_percent (rate : N) (year : nat) : N :=
  n_mul (n_sub (n_pow (n_add (n_int 1) rate) year) (n_int 1)) (n_int 100).

(** The three named rates: 0.20, 0.50 and 1.20. *)
Definition scenarios : list (string * N) :=
  [("Conservative"%string, n_dec 20 2);
   ("Moderate"%string, n_dec 50 2);
   ("Aggressive"%string, n_dec 120 2)].

Definition horizons : list nat := [1; 5; 10]%nat.

(** The unformatted table: a row per horizon, a cell per scenario. *)
Definition growth_table (price : N) : list (nat * list (string * N)) :=
  map (fun year =>
         (year, map (fun '(name, rate) => (name, growth_percent price rate year))
                    scenarios))
      horizons.

End Projection.

(** The table as printed. *)
Definition projections (price : float) : list projection_row :=
  map (fun '(year, cells) =>
         {| Timeframe := Z.of_nat year;
            Growth := map (fun '(name, g) =>
                             ((name ++ " Growth %")%string,
                              (format_2f g ++ "%")%string))
                          cells |})
      (growth_table price).
(** *** [display_advanced_analysis] *)

Definition display_advanced_analysis (pd : pandas) (df : list coin) : io unit :=
  let avg_change := mean (map change df) in
  let sentiment := if 0 <? avg_change then Bullish else Bearish in
  print (Sentiment sentiment avg_change) ;;;
  i <~ lift (idxmax pd (map price df)) ;;
  highest_price_coin <~ lift (loc df i) ;;
  j <~ lift (idxmin pd (map price df)) ;;
  lowest_price_coin <~ lift (loc df j) ;;
  print (HighestPrice highest_price_coin) ;;;
  print (LowestPrice lowest_price_coin).

(** *** [display_highly_advanced_analysis] *)

(** Line 165: the products of the two columns, summed, over the sum of the
    caps. *)
Definition weighted_avg_change (df : list coin) : float :=
  series_sum (map (fun c => change c * cap c) df) / series_sum (map cap df).

Definition is_large (c : coin) : bool := int_to_float 10000000000 <=? cap c.

Definition is_mid (c : coin) : bool :=
  (int_to_float 1000000000 <=? cap c) && (cap c <? int_to_float 10000000000).

Definition is_small (c : coin) : bool := cap c <? int_to_float 1000000000.

Definition large_cap (df : list coin) : nat := List.length (filter is_large df).
Definition mid_cap (df : list coin) : nat := List.length (filter is_mid df).
Definition small_cap (df : list coin) : nat := List.length (filter is_small df).

(** [df.loc[column.idxmax(), 'Name']], and the same with [idxmin]. *)
Definition name_at (df : list coin) (label : res (option nat)) : io string :=
  i <~ lift label ;;
  c <~ lift (loc df i) ;;
  lift (Ok (coin_name c)).

Definition display_highly_advanced_analysis (pd : pandas) (df : list coin)
  : io unit :=
  print (Volatility (std (map change df))) ;;;
  let w := weighted_avg_change df in
  let weighted_sentiment := if 0 <? w then Bullish else Bearish in
  print (WeightedSentiment weighted_sentiment w) ;;;
  print (CapTiers (large_cap df) (mid_cap df) (small_cap df)) ;;;
  max_price_name <~ name_at df (idxmax pd (map price df)) ;;
  max_change_name <~ name_at df (idxmax pd (map change df)) ;;
  max_mcap_name <~ name_at df (idxmax pd (map cap df)) ;;
  min_price_name <~ name_at df (idxmin pd (map price df)) ;;
  min_change_name <~ name_at df (idxmin pd (map change df)) ;;
  min_mcap_name <~ name_at df (idxmin pd (map cap df)) ;;
  print (SummaryDetails (max_price_name, max_change_name, max_mcap_name)
                        (min_price_name, min_change_name, min_mcap_name)).

(** *** [display_recommendation_assistant] *)

(** [(s - s.min()) / (s.max() - s.min())], entry by entry. *)
Definition min_max_norm (s : list float) : list float :=
  map (fun v => (v - series_min s) / (series_max s - series_min s)) s.

Definition mc_norm (df : list coin) : list float := min_max_norm (map cap df).
Definition ch_norm (df : list coin) : list float := min_max_norm (map change df).

Definition score (df : list coin) : list float :=
  map (fun '(mc, ch) => 0.5 * mc + 0.5 * ch) (combine (mc_norm df) (ch_norm df)).

Definition display_recommendation_assistant (pd : pandas) (df : list coin)
  : io unit :=
  i <~ lift (idxmax pd (score df)) ;;
  recommendation <~ lift (loc df i) ;;
  print (Recommendation (coin_name recommendation) (change recommendation)) ;;;
  print (Projections (projections (price recommendation))).

(** *** [main] *)

(** The [else] branch of one pass of the loop, from the scraped sample to
    the CSV line.  (The gainers and losers tables, the statistical summary
    grid and the chart only render values and are left out.) *)
Definition analysis (pd : pandas) (data : list record) : io unit :=
  print (ScrapedData data) ;;;
  let analysis_data := dropna data in
  display_advanced_analysis pd analysis_data ;;;
  display_highly_advanced_analysis pd analysis_data ;;;
  display_recommendation_assistant pd analysis_data ;;;
  print (SavedToCsv (List.length data)).

(** The body of [while True], up to the sleep. *)
Definition cycle (pd : pandas) (s : session) : io unit :=
  data <~ lift (get_top_cryptos s) ;;
  if (List.length data =? 0)%nat || (List.length data <? TOP_N)%nat
  then print IncompleteData
  else analysis pd data.

(** How a pass ends: asleep until the next one, or out of the loop through
    [except Exception]. *)
Inductive next : Type := Sleep | Exit.

Definition main_cycle (pd : pandas) (s : session) : list line * next :=
  match cycle pd s with
  | (out, Ok _) => (out, Sleep)
  | (out, Raise e) => (out ++ [UnexpectedError e], Exit)
  end.

(** [main] over the successive runs of the browser, until the user
    interrupts. *)
Fixpoint main (pd : pandas) (sessions : list session) : list line :=
  match sessions with
  | [] => []
  | s :: rest =>
      match main_cycle pd s with
      | (out, Sleep) => out ++ main pd rest
      | (out, Exit) => out
      end
  end.

End Tracker.

(** ** The specification's vocabulary *)

Module Spec.
Import Py Tracker.

(** "Parses the remainder as a float and multiplies by the multiplier":
    absent when the remainder is not a number. *)
Definition scaled (multiplier : Z) (remainder : string) : res (option float) :=
  match float_of_str remainder with
  | Ok x => Ok (Some (float_mul_int x multiplier))
  | Raise _ => Ok None
  end.

(** The text without its last character, and that character. *)
Fixpoint split_last (s : string) : option (string * ascii) :=
  match s with
  | EmptyString => None
  | String a s' =>
      match split_last s' with
      | None => Some (EmptyString, a)
      | Some (body, c) => Some (String a body, c)
      end
  end.

(** "Recognizes magnitude suffixes exactly once, case-sensitively, checked
    in priority order Trillion, Billion, Million; suffix removed": the
    suffix is the last character of the text, and only that one character
    goes. *)
Definition suffix_multiplier (text : string) : Z * string :=
  match split_last text with
  | Some (body, c) =>
      if Ascii.eqb c "T" then (10 ^ 12, body)
      else if Ascii.eqb c "B" then (10 ^ 9, body)
      else if Ascii.eqb c "M" then (10 ^ 6, body)
      else (1, text)
  | None => (1, text)
  end.

(** The Numeric Normalizer in the specification's words,
    [normalize(text) -> float | absent]: the symbols and the surrounding
    whitespace are stripped as line 37 strips them, the suffix is taken
    off, and the remainder is parsed and multiplied. *)
Definition normalize (text : pyobj) : option float :=
  match text with
  | PyStr text =>
      let '(multiplier, remainder) := suffix_multiplier (strip_symbols text) in
      match float_of_str remainder with
      | Ok x => Some (float_mul_int x multiplier)
      | Raise _ => None
      end
  | _ => None
  end.

(** None of the letters T, B, M stands anywhere but at the end. *)
Definition suffix_only (text : string) : bool :=
  match split_last text with
  | Some (body, _) =>
      negb (contains "T" body || contains "B" body || contains "M" body)
  | None => true
  end.

(** The Record Extractor, [extract(cells) -> MarketRecord | skip]: skip for
    a row below nine cells and for a row whose columns cannot be read. *)
Definition extract (cols : list cell) : option record :=
  if (List.length cols <? 9)%nat then None
  else
    match parse_row cols with
    | Ok r => Some r
    | Raise _ => None
    end.

(** The Snapshot Builder, [build(rawRows, topN)]: the non-skip records of
    the first [topN] rows, in their order. *)
Fixpoint keep_records (rows : list (list cell)) : list record :=
  match rows with
  | [] => []
  | cols :: rest =>
      match extract cols with
      | Some r => r :: keep_records rest
      | None => keep_records rest
      end
  end.



Definition is_record (cols : list cell) : bool :=
  match extract cols with Some _ => true | None => false end.

(** *** The order of binary64 values

    Every value but NaN has a rank: a triple that grows with the value
    (sign class first, then the exponent, then the mantissa, both negated
    below zero).  Comparing two values is comparing their ranks. *)

Definition key (x : spec_float) : Z * Z * Z :=
  match x with
  | S754_nan => (0, 0, 0)%Z
  | S754_infinity true => (-2, 0, 0)%Z
  | S754_finite true m e => (-1, - e, Zneg m)%Z
  | S754_zero _ => (0, 0, 0)%Z
  | S754_finite false m e => (1, e, Zpos m)%Z
  | S754_infinity false => (2, 0, 0)%Z
  end.

Definition lex_compare (a b : Z * Z * Z) : comparison :=
  let '(a1, a2, a3) := a in
  let '(b1, b2, b3) := b in
  match (a1 ?= b1)%Z with
  | Eq => match (a2 ?= b2)%Z with
          | Eq => (a3 ?= b3)%Z
          | c => c
          end
  | c => c
  end.

Definition rank (x : float) : Z * Z * Z := key (Prim2SF x).

(** [x] is a number: not NaN. *)
Definition number (x : float) : Prop := Prim2SF x <> S754_nan.

End Spec.

(** ** Persistence: [save_to_csv] *)

Module Csv.
Import Py Tracker.

Local Open Scope list_scope.

(** What a cell of a frame holds: text, or a number that may be missing. *)
Inductive value : Type :=
| VStr (s : string)
| VNum (x : option float).

(** A frame: the length of its index, and its columns in order, each a
    label with one value per index entry. *)
Record frame : Type := {
  nrows : nat;
  columns : list (string * list value)
}.

(** [pd.DataFrame(crypto_data)]: a column per dictionary key, in key order;
    no column at all for an empty list. *)
Definition DataFrame (crypto_data : list record) : frame :=
  match crypto_data with
  | [] => {| nrows := 0; columns := [] |}
  | _ =>
      {| nrows := List.length crypto_data;
         columns :=
           [ ("Name", map (fun r => VStr (Name r)) crypto_data);
             ("PriceUSD", map (fun r => VNum (PriceUSD r)) crypto_data);
             ("Change24h_Percent", map (fun r => VNum (Change24h_Percent r)) crypto_data);
             ("MarketCapUSD", map (fun r => VNum (MarketCapUSD r)) crypto_data) ] |}
  end.

(** [df.columns] *)
Definition labels (df : frame) : list string := map fst (columns df).

Definition has_label (name : string) (cols : list (string * list value)) : bool :=
  existsb (fun c => String.eqb (fst c) name) cols.

(** [df[name] = scalar]: the columns of that label are overwritten where
    they stand; without one, the column is added at the end. *)
Definition setitem (df : frame) (name : string) (scalar : value) : frame :=
  let vals := repeat scalar (nrows df) in
  {| nrows := nrows df;
     columns :=
       if has_label name (columns df)
       then map (fun c => if String.eqb (fst c) name then (name, vals) else c)
                (columns df)
       else columns df ++ [(name, vals)] |}.

(** [df[cols]] for a list of labels: the columns of each label, label by
    label; [KeyError] for a label the frame does not have. *)
Fixpoint getitem_columns (cols : list string) (df : frame)
  : res (list (string * list value)) :=
  match cols with
  | [] => Ok []
  | name :: rest =>
      match filter (fun c => String.eqb (fst c) name) (columns df) with
      | [] => Raise KeyError
      | found =>
          more <- getitem_columns rest df ;;
          Ok (found ++ more)
      end
  end.

(** A line of the file: the header, or the cells of one row. *)
Inductive csv_line : Type :=
| HeaderLine (names : list string)
| DataLine (cells : list value).

(** The rows of a frame, each across the columns. *)
Definition rows_of (df : frame) : list (list value) :=
  map (fun i => map (fun c => nth i (snd c) (VNum None)) (columns df))
      (seq 0 (nrows df)).

(** [df.to_csv(filename, mode='a', header=write_header, index=False)] on
    the lines the file has so far. *)
Definition to_csv (df : frame) (write_header : bool) (old : list csv_line)
  : list csv_line :=
  old ++ (if write_header then [HeaderLine (labels df)] else [])
      ++ map DataLine (rows_of df).

(** [save_to_csv(df, filename)]: [file] is what [filename] holds, [None]
    when it does not exist, and [now] the formatted time of the call.  The
    directory is taken to exist or to be creatable, and the file to be
    writable.  The result is the file afterwards. *)
Definition save_to_csv (df : frame) (now : string) (file : option (list csv_line))
  : res (list csv_line) :=
  let df := setitem df "Timestamp" (VStr now) in
  let cols :=
    "Timestamp"%string
      :: filter (fun col => negb (String.eqb col "Timestamp")) (labels df) in
  selected <- getitem_columns cols df ;;
  let df := {| nrows := nrows df; columns := selected |} in
  let write_header := match file with None => true | Some _ => false end in
  Ok (to_csv df write_header (match file with None => [] | Some old => old end)).

(** One save after the other, each with its frame and its time. *)
Fixpoint save_all (batches : list (frame * string)) (file : option (list csv_line))
  : res (option (list csv_line)) :=
  match batches with
  | [] => Ok file
  | (df, now) :: rest =>
      written <- save_to_csv df now file ;;
      save_all rest (Some written)
  end.

(** Every column has one value per index entry. *)
Definition rectangular (df : frame) : Prop :=
  Forall (fun c => List.length (snd c) = nrows df) (columns df).

End Csv.

(** ** Further vocabulary *)

Module Terms.
Import Py Tracker Spec Csv.

Local Open Scope list_scope.

(** The frame [save_to_csv] writes, when the labels are all different: the
    time stamps first, then the other columns as they were. *)
Definition stamped (df : frame) (now : string) : frame :=
  {| nrows := nrows df;
     columns :=
       ("Timestamp"%string, repeat (VStr now) (nrows df))
         :: filter (fun c => negb (String.eqb (fst c) "Timestamp")) (columns df) |}.

(** A character that no text of a number has, and that the cleaning leaves
    in place: no digit, no whitespace, and none of
    [. + - _ e E $ , % T B M] and of the letters of "inf", "infinity" and
    "nan" in either case. *)
Definition foreign (c : ascii) : bool :=
  negb (is_digit c || is_space c ||
        existsb (Ascii.eqb c)
          (list_ascii_of_string ".+-_eE$,%TBMinfatyINFATY")).

(** Text that begins with a digit or with a point. *)
Definition begins_numeric (s : string) : bool :=
  match s with
  | String a _ => is_digit a || Ascii.eqb a "."
  | EmptyString => false
  end.

(** What the loop reads of a row: the symbol under the third cell and the
    texts of the fourth, sixth and eighth. *)
Definition readings (cols : list cell)
  : option (res string) * option (res string) *
    option (res string) * option (res string) :=
  (option_map coin_item_symbol (nth_error cols 2),
   option_map text (nth_error cols 3),
   option_map text (nth_error cols 5),
   option_map text (nth_error cols 7)).

(** [v] is at position [r] of [l], no entry of [l] is above it, and the
    entries before it are below it. *)
Definition first_largest (l : list float) (r : nat) (v : float) : Prop :=
  nth_error l r = Some v /\
  forall j x, nth_error l j = Some x ->
              lex_compare (rank x) (rank v) <> Gt /\
              ((j < r)%nat -> lex_compare (rank x) (rank v) = Lt).

(** [d] is finite and not zero. *)
Definition finite_nonzero (d : float) : Prop :=
  exists s m e, Prim2SF d = S754_finite s m e.

(** The spread of a column, largest minus smallest, is finite and not
    zero. *)
Definition spread_ok (s : list float) : Prop :=
  finite_nonzero (series_max s - series_min s)%float.

(** The rows of the table, when the browser got as far as line 84. *)
Definition table (s : session) : option (list row) :=
  match s with
  | Driver (Ok trs) _ _ => Some trs
  | _ => None
  end.

(** What the handler and the [finally] clause ask of the driver goes
    through: the screenshot and the quit. *)
Definition teardown_succeeds (s : session) : Prop :=
  match s with
  | NoDriver _ => True
  | Driver _ save_screenshot quit => save_screenshot = Ok tt /\ quit = Ok tt
  end.

(** The line [save_to_csv] accounts for. *)
Definition is_saved (l : line) : bool :=
  match l with
  | SavedToCsv _ => true
  | _ => false
  end.

(** The body of the inner [try] as a function of the four readings. *)
Definition parse_readings (sym t3 t5 t7 : res string) : res record :=
  name <- sym ;;
  t3 <- t3 ;;
  price <- clean_numeric_text (PyStr t3) ;;
  t5 <- t5 ;;
  change_24h <- clean_numeric_text (PyStr t5) ;;
  t7 <- t7 ;;
  market_cap <- clean_numeric_text (PyStr t7) ;;
  Ok {| Name := name; PriceUSD := price;
        Change24h_Percent := change_24h; MarketCapUSD := market_cap |}.

End Terms.

Import Py Tracker Spec.

Local Open Scope list_scope.

(** ** Text lemmas *)

Section Text.

Lemma contains_app c s t : contains c (s ++ t) = contains c s || contains c t.
Proof.
  induction s as [|a s IH]; simpl; [reflexivity|].
  destruct (Ascii.eqb a c); [reflexivity | exact IH].
Qed.

Lemma remove_app c s t : remove c (s ++ t) = (remove c s ++ remove c t)%string.
Proof.
  induction s as [|a s IH]; simpl; [reflexivity|].
  destruct (Ascii.eqb a c); simpl; rewrite IH; reflexivity.
Qed.

Lemma remove_absent c s : contains c s = false -> remove c s = s.
Proof.
  induction s as [|a s IH]; simpl; [reflexivity|].
  destruct (Ascii.eqb a c); [discriminate|].
  intros H. rewrite (IH H). reflexivity.
Qed.

Lemma app_empty_r (s : string) : (s ++ "")%string = s.
Proof. induction s as [|a s IH]; simpl; [|rewrite IH]; reflexivity. Qed.

End Text.

(** ** The Numeric Normalizer *)

Section Normalizer.

Lemma float_of_str_raises s e : float_of_str s = Raise e -> e = ValueError.
Proof.
  unfold float_of_str.
  destruct (if contains "_" s then strip_underscores None s else Some s);
    [|congruence].
  destruct (read_sign _) as [neg body].
  destruct (parse_decimal body); [discriminate|].
  destruct (parse_inf_or_nan body); [discriminate|congruence].
Qed.

(** [clean_numeric_text] on text is [scaled] on what [split_multiplier]
    leaves of the cleaned text. *)
Lemma clean_numeric_text_scaled s :
  clean_numeric_text (PyStr s) =
  scaled (fst (split_multiplier (strip_symbols s)))
         (snd (split_multiplier (strip_symbols s))).
Proof.
  unfold clean_numeric_text, scaled.
  destruct (split_multiplier (strip_symbols s)) as [k t]. simpl.
  destruct (float_of_str t) as [x|e] eqn:E; simpl; [reflexivity|].
  rewrite (float_of_str_raises _ _ E). reflexivity.
Qed.

Lemma scaled_total k t : exists r, scaled k t = Ok r.
Proof. unfold scaled. destruct (float_of_str t); eauto. Qed.

End Normalizer.

(** C1.  [clean_numeric_text] returns a float or [None] on every object and
    never raises: an object that is not a [str] (in particular [None])
    gives [None], and so does a text whose remainder after cleaning and
    suffix removal [float] rejects, the empty text among them. *)
Theorem clean_numeric_text_never_raises :
  (forall v, exists r, clean_numeric_text v = Ok r) /\
  (forall v, is_str v = false -> clean_numeric_text v = Ok None) /\
  (forall s e,
      float_of_str (snd (split_multiplier (strip_symbols s))) = Raise e ->
      clean_numeric_text (PyStr s) = Ok None) /\
  clean_numeric_text (PyStr "") = Ok None /\
  clean_numeric_text PyNone = Ok None.
Proof.
  repeat split.
  - intros [| | | |s]; try (simpl; eauto; fail).
    rewrite clean_numeric_text_scaled. apply scaled_total.
  - intros [| | | |s]; simpl; auto; discriminate.
  - intros s e H. rewrite clean_numeric_text_scaled. unfold scaled.
    rewrite H. reflexivity.
Qed.

(** A text that is not a number ("N/A") and an integer object both come
    back as [None]. *)
Lemma clean_numeric_text_never_raises_witness :
  clean_numeric_text (PyStr "N/A") = Ok None /\
  clean_numeric_text (PyInt 7) = Ok None.
Proof.
  destruct clean_numeric_text_never_raises as (_ & Hobj & Htxt & _).
  split.
  - apply (Htxt "N/A" ValueError). reflexivity.
  - apply (Hobj (PyInt 7)). reflexivity.
Defined.

Section Suffix.

Lemma split_last_none s : split_last s = None -> s = EmptyString.
Proof.
  destruct s as [|a s]; [reflexivity|]. simpl.
  destruct (split_last s) as [[body c]|]; discriminate.
Qed.

Lemma split_last_app s : forall body c,
  split_last s = Some (body, c) -> s = (body ++ String c "")%string.
Proof.
  induction s as [|a s IH]; intros body c; simpl; [discriminate|].
  destruct (split_last s) as [[b d]|] eqn:E; intros H; injection H as <- <-.
  - rewrite (IH b d eq_refl). reflexivity.
  - rewrite (split_last_none s E). reflexivity.
Qed.

(** Where the three letters stand at the end only, the chain of line 40
    finds what the suffix rule finds. *)
Lemma split_multiplier_suffix_only t :
  suffix_only t = true -> split_multiplier t = suffix_multiplier t.
Proof.
  unfold suffix_only, suffix_multiplier.
  destruct (split_last t) as [[body c]|] eqn:L.
  - apply split_last_app in L. subst t. intros H.
    apply negb_true_iff in H. apply orb_false_iff in H. destruct H as (H & HM).
    apply orb_false_iff in H. destruct H as (HT & HB).
    unfold split_multiplier.
    rewrite !contains_app, !remove_app, HT, HB, HM,
      (remove_absent _ _ HT), (remove_absent _ _ HB), (remove_absent _ _ HM).
    cbn [contains remove orb].
    destruct (Ascii.eqb c "T") eqn:ET; [rewrite app_empty_r; reflexivity|].
    destruct (Ascii.eqb c "B") eqn:EB; [rewrite app_empty_r; reflexivity|].
    destruct (Ascii.eqb c "M") eqn:EM; [rewrite app_empty_r; reflexivity|].
    reflexivity.
  - intros _. rewrite (split_last_none t L). reflexivity.
Qed.

Lemma clean_numeric_text_normalize s :
  suffix_only (strip_symbols s) = true ->
  clean_numeric_text (PyStr s) = Ok (normalize (PyStr s)).
Proof.
  intros H. rewrite clean_numeric_text_scaled. unfold normalize.
  rewrite (split_multiplier_suffix_only _ H).
  destruct (suffix_multiplier (strip_symbols s)) as [m r]. cbn [fst snd].
  unfold scaled. destruct (float_of_str r); reflexivity.
Qed.

(** The chain of line 40 on the cleaned text. *)
Lemma clean_numeric_text_chain s :
  clean_numeric_text (PyStr s) =
  let t := strip_symbols s in
  if contains "T" t then scaled (10 ^ 12) (remove "T" t)
  else if contains "B" t then scaled (10 ^ 9) (remove "B" t)
  else if contains "M" t then scaled (10 ^ 6) (remove "M" t)
  else scaled 1 t.
Proof.
  rewrite clean_numeric_text_scaled. unfold split_multiplier. cbv zeta.
  destruct (contains "T" _); [reflexivity|].
  destruct (contains "B" _); [reflexivity|].
  destruct (contains "M" _); reflexivity.
Qed.

End Suffix.

(** ** [clean_numeric_text]: what the cleaning makes no difference of *)

Section Cleaning.

(** The three replacements of line 37 together. *)
Let unmark (s : string) : string := remove "%" (remove "," (remove "$" s)).

Lemma unmark_app s t : unmark (s ++ t) = (unmark s ++ unmark t)%string.
Proof. unfold unmark. rewrite !remove_app. reflexivity. Qed.

Lemma rstrip_drops_last sp s c :
  sp c = true -> rstrip sp (s ++ String c "") = rstrip sp s.
Proof.
  intros Hc. induction s as [|a s IH]; simpl.
  - rewrite Hc. reflexivity.
  - rewrite IH. reflexivity.
Qed.

Lemma strip_drops_last sp s c :
  sp c = true ->
  rstrip sp (lstrip sp (s ++ String c "")) = rstrip sp (lstrip sp s).
Proof.
  intros Hc. induction s as [|a s IH]; simpl.
  - rewrite Hc. reflexivity.
  - destruct (sp a); [exact IH|].
    change (String a (s ++ String c ""))%string
      with (String a s ++ String c "")%string.
    apply rstrip_drops_last. exact Hc.
Qed.

(** No whitespace character is one of the three symbols. *)
Lemma space_is_no_symbol c :
  is_space c = true ->
  Ascii.eqb c "$" = false /\ Ascii.eqb c "," = false /\ Ascii.eqb c "%" = false.
Proof.
  destruct c as [[] [] [] [] [] [] [] []]; intros H;
    try discriminate H; repeat split; reflexivity.
Qed.

Lemma unmark_space c : is_space c = true -> unmark (String c "") = String c "".
Proof.
  intros H. destruct (space_is_no_symbol c H) as (E1 & E2 & E3).
  unfold unmark. simpl. rewrite E1. simpl. rewrite E2. simpl. rewrite E3.
  reflexivity.
Qed.

Lemma strip_symbols_insert c s1 s2 :
  c = "$"%char \/ c = ","%char \/ c = "%"%char ->
  strip_symbols (s1 ++ String c s2) = strip_symbols (s1 ++ s2).
Proof.
  intros H. unfold strip_symbols. fold (unmark (s1 ++ String c s2)).
  fold (unmark (s1 ++ s2)). rewrite !unmark_app.
  replace (unmark (String c s2)) with (unmark s2); [reflexivity|].
  destruct H as [-> | [-> | ->]]; unfold unmark; simpl; reflexivity.
Qed.

Lemma strip_symbols_space_l c s :
  is_space c = true -> strip_symbols (String c s) = strip_symbols s.
Proof.
  intros H. unfold strip_symbols. fold (unmark (String c s)). fold (unmark s).
  change (String c s) with (String c "" ++ s)%string.
  rewrite unmark_app, (unmark_space c H). unfold strip. simpl. rewrite H.
  reflexivity.
Qed.

Lemma strip_symbols_space_r c s :
  is_space c = true -> strip_symbols (s ++ String c "") = strip_symbols s.
Proof.
  intros H. unfold strip_symbols. fold (unmark (s ++ String c "")).
  fold (unmark s). rewrite unmark_app, (unmark_space c H).
  apply strip_drops_last. exact H.
Qed.

Lemma clean_numeric_text_ext s t :
  strip_symbols s = strip_symbols t ->
  clean_numeric_text (PyStr s) = clean_numeric_text (PyStr t).
Proof. intros E. rewrite !clean_numeric_text_scaled, E. reflexivity. Qed.

End Cleaning.


(** The normalizer claim as written (a magnitude suffix is recognised, once,
    and removed) does not hold: the letter is looked for anywhere in the
    text and every occurrence of it is removed.  "1.2TT", "T1.2" and "1T2"
    have no number before one suffix, and the suffix rule makes them
    absent; [clean_numeric_text] reads them as 1.2e12, 1.2e12 and 12e12. *)
Lemma magnitude_letter_is_taken_anywhere :
  clean_numeric_text (PyStr "1.2TT") = Ok (Some 1.2e12%float) /\
  normalize (PyStr "1.2TT") = None /\
  clean_numeric_text (PyStr "T1.2") = Ok (Some 1.2e12%float) /\
  normalize (PyStr "T1.2") = None /\
  clean_numeric_text (PyStr "1T2") = Ok (Some 12e12%float) /\
  normalize (PyStr "1T2") = None.
Proof. vm_compute. repeat split; reflexivity. Qed.

(** C2, as amended.  A dollar sign, a comma or a percent sign is dropped
    wherever it stands, and so is a whitespace character at either end.
    Then one multiplier is chosen: 10^12 when the text has a capital T,
    else 10^9 for a capital B, else 10^6 for a capital M, else 1; every
    occurrence of the letter found is removed and what remains is parsed
    and multiplied.  Where the three letters stand at the end of the
    cleaned text only, this is the suffix rule of the specification.  A
    second letter of lower priority and a lower-case letter are not
    consumed; "$1.2T" is 1.2e12, "$1,234.56" is 1234.56 and "45.3%" is
    45.3. *)
Theorem clean_numeric_text_suffix :
  (forall c s1 s2,
      c = "$"%char \/ c = ","%char \/ c = "%"%char ->
      clean_numeric_text (PyStr (s1 ++ String c s2)) =
      clean_numeric_text (PyStr (s1 ++ s2))) /\
  (forall c s,
      is_space c = true ->
      clean_numeric_text (PyStr (String c s)) = clean_numeric_text (PyStr s) /\
      clean_numeric_text (PyStr (s ++ String c "")) = clean_numeric_text (PyStr s)) /\
  (forall s,
      suffix_only (strip_symbols s) = true ->
      clean_numeric_text (PyStr s) = Ok (normalize (PyStr s))) /\
  (forall s,
      clean_numeric_text (PyStr s) =
      let t := strip_symbols s in
      if contains "T" t then scaled (10 ^ 12) (remove "T" t)
      else if contains "B" t then scaled (10 ^ 9) (remove "B" t)
      else if contains "M" t then scaled (10 ^ 6) (remove "M" t)
      else scaled 1 t) /\
  clean_numeric_text (PyStr "1.2TB") = Ok None /\
  clean_numeric_text (PyStr "1.2t") = Ok None /\
  clean_numeric_text (PyStr "$1.2T") = Ok (Some 1.2e12%float) /\
  clean_numeric_text (PyStr "$1,234.56") = Ok (Some 1234.56%float) /\
  clean_numeric_text (PyStr "45.3%") = Ok (Some 45.3%float).
Proof.
  split; [|split; [|split; [|split]]].
  - intros c s1 s2 H. apply clean_numeric_text_ext. apply strip_symbols_insert.
    exact H.
  - intros c s H. split; apply clean_numeric_text_ext.
    + apply strip_symbols_space_l. exact H.
    + apply strip_symbols_space_r. exact H.
  - exact clean_numeric_text_normalize.
  - exact clean_numeric_text_chain.
  - repeat split; vm_compute; reflexivity.
Qed.

(** "$3.5B" has its one letter at the end: the suffix rule applies, and the
    number is 3.5 times 10^9.  A comma inside "1,234.56" and a separator
    character (0x1c) before "7" make no difference. *)
Lemma clean_numeric_text_suffix_witness :
  clean_numeric_text (PyStr "$3.5B") = Ok (Some 3500000000%float) /\
  clean_numeric_text (PyStr "1,234.56") = clean_numeric_text (PyStr "1234.56") /\
  clean_numeric_text (PyStr (String (ascii_of_nat 28) "7")) =
  clean_numeric_text (PyStr "7").
Proof.
  destruct clean_numeric_text_suffix as (Hsym & Hsp & Hsuf & _).
  split; [|split].
  - rewrite (Hsuf "$3.5B" eq_refl). reflexivity.
  - apply (Hsym ","%char "1" "234.56"). right. left. reflexivity.
  - exact (proj1 (Hsp (ascii_of_nat 28) "7" eq_refl)).
Defined.

(** ** The Record Extractor and the Snapshot Builder *)

Section Rows.

(** One turn of the loop appends the extractor's record, if there is one. *)
Lemma row_step_extract crypto_data cols :
  row_step crypto_data cols =
  Ok (match extract cols with
      | Some r => crypto_data ++ [r]
      | None => crypto_data
      end).
Proof.
  unfold row_step, extract.
  destruct (List.length cols <? 9)%nat; [reflexivity|].
  destruct (parse_row cols); reflexivity.
Qed.

(** Over rows whose cells are all handed over, the loop refines the fold of
    the specification. *)
Lemma for_rows_keep_records rows : forall crypto_data,
  for_rows (map Ok rows) crypto_data = Ok (crypto_data ++ keep_records rows).
Proof.
  induction rows as [|cols rows IH]; intros acc; simpl.
  - rewrite app_nil_r. reflexivity.
  - rewrite row_step_extract. simpl. rewrite IH.
    destruct (extract cols); [rewrite <- app_assoc|]; reflexivity.
Qed.

(** The first row whose cells are not handed over ends the loop, with the
    exception of the lookup. *)
Lemma for_rows_raise before e after : forall crypto_data,
  for_rows (map Ok before ++ Raise e :: after) crypto_data = Raise e.
Proof.
  induction before as [|cols before IH]; intros acc; simpl; [reflexivity|].
  rewrite row_step_extract. simpl. apply IH.
Qed.

(** Either every row hands over its cells, or there is a first one that
    does not. *)
Lemma rows_fetched_or_not (rows : list row) :
  (exists rawRows, rows = map Ok rawRows) \/
  (exists before e after, rows = map Ok before ++ Raise e :: after).
Proof.
  induction rows as [|[cols|e] rows IH].
  - left. exists []. reflexivity.
  - destruct IH as [(raw & ->) | (before & e & after & ->)].
    + left. exists (cols :: raw). reflexivity.
    + right. exists (cols :: before), e, after. reflexivity.
  - right. exists [], e, rows. reflexivity.
Qed.

Lemma keep_records_length rows :
  List.length (keep_records rows) = List.length (filter is_record rows).
Proof.
  induction rows as [|cols rows IH]; simpl; [reflexivity|].
  unfold is_record. destruct (extract cols); simpl; rewrite IH; reflexivity.
Qed.


(** What [get_top_cryptos] returns when the driver is up and its teardown
    goes through: the records of the first [TOP_N] rows when their cells
    are all handed over, and the empty frame otherwise. *)
Lemma get_top_cryptos_fetched trs rawRows shot :
  firstn TOP_N trs = map Ok rawRows ->
  get_top_cryptos (Driver (Ok trs) shot (Ok tt)) = Ok (keep_records rawRows).
Proof.
  intros H. unfold get_top_cryptos, finally, try_except. cbn [bind].
  unfold row in *. rewrite H, for_rows_keep_records. reflexivity.
Qed.

Lemma get_top_cryptos_not_fetched trs before e after :
  firstn TOP_N trs = map Ok before ++ Raise e :: after ->
  get_top_cryptos (Driver (Ok trs) (Ok tt) (Ok tt)) = Ok [].
Proof.
  intros H. unfold get_top_cryptos, finally, try_except. cbn [bind].
  unfold row in *. rewrite H, for_rows_raise. reflexivity.
Qed.

End Rows.

(** C3, at the failing input.  The table has twenty rows.  When the second
    is an advertisement of two cells it is passed over, and when its name
    cell has no [p.coin-item-symbol] below it the inner [except Exception]
    skips it: in both cases the other nineteen records come back, the
    failure is row-scoped.  When instead the second row has gone
    stale by the time its cells are asked for, line 89 raises outside the
    inner [try]: the outer handler answers with an empty frame, the record
    already made of the first row is lost with the eighteen never read, and
    [main] reports incomplete data. *)
Theorem stale_row_discards_the_batch :
  let td s := {| text := Ok s; coin_item_symbol := Ok s |} in
  let cells := [td ""; td "1"; td "BTC"; td "$1.00"; td "0.1%"; td "2.5%";
                td "0.3%"; td "$1.2B"; td "$20M"] in
  let unnamed := [td ""; td "1";
                  {| text := Ok "BTC";
                     coin_item_symbol := Raise NoSuchElementException |};
                  td "$1.00"; td "0.1%"; td "2.5%"; td "0.3%"; td "$1.2B";
                  td "$20M"] in
  let r := {| Name := "BTC"; PriceUSD := Some 1%float;
              Change24h_Percent := Some 2.5%float;
              MarketCapUSD := Some 1200000000%float |} in
  let table second :=
    Driver (Ok (Ok cells :: second :: repeat (Ok cells) 18)) (Ok tt) (Ok tt) in
  get_top_cryptos (table (Ok [td "Sponsored"; td ""])) = Ok (repeat r 19) /\
  get_top_cryptos (table (Ok unnamed)) = Ok (repeat r 19) /\
  get_top_cryptos (table (Raise StaleElementReferenceException)) = Ok [] /\
  (forall pd,
      main_cycle pd (table (Raise StaleElementReferenceException)) =
      ([IncompleteData], Sleep)).
Proof.
  intros td cells unnamed r table. split; [|split; [|split]].
  - vm_compute. reflexivity.
  - vm_compute. reflexivity.
  - vm_compute. reflexivity.
  - intros pd. vm_compute. reflexivity.
Qed.



(** ** Comparing binary64 values *)

Section FloatOrder.

Lemma SFcompare_key x y :
  x <> S754_nan -> y <> S754_nan ->
  SFcompare x y = Some (lex_compare (key x) (key y)).
Proof.
  intros Hx Hy.
  destruct x as [sx|sx| |sx mx ex]; try congruence;
    destruct y as [sy|sy| |sy my ey]; try congruence;
    try destruct sx; try destruct sy; try reflexivity.
  (* two negative numbers are left *)
  unfold key, lex_compare, SFcompare.
  change (-1 ?= -1)%Z with Eq. cbv iota.
  rewrite Z.compare_opp, (Z.compare_antisym ex ey).
  destruct (ex ?= ey)%Z; reflexivity.
Qed.

Lemma lex_compare_refl a : lex_compare a a = Eq.
Proof.
  destruct a as [[a1 a2] a3]. unfold lex_compare. rewrite !Z.compare_refl.
  reflexivity.
Qed.

Lemma lex_compare_eq a b : lex_compare a b = Eq -> a = b.
Proof.
  destruct a as [[a1 a2] a3], b as [[b1 b2] b3]. unfold lex_compare.
  destruct (Z.compare_spec a1 b1); try discriminate.
  destruct (Z.compare_spec a2 b2); try discriminate.
  destruct (Z.compare_spec a3 b3); try discriminate.
  intros _. congruence.
Qed.

Lemma lex_compare_antisym a b : lex_compare b a = CompOpp (lex_compare a b).
Proof.
  destruct a as [[a1 a2] a3], b as [[b1 b2] b3]. unfold lex_compare.
  rewrite (Z.compare_antisym a1 b1), (Z.compare_antisym a2 b2),
    (Z.compare_antisym a3 b3).
  destruct (a1 ?= b1)%Z, (a2 ?= b2)%Z, (a3 ?= b3)%Z; reflexivity.
Qed.

(** [a <= b] and [b <= c] give [a <= c]. *)
Lemma lex_compare_le_trans a b c :
  lex_compare a b <> Gt -> lex_compare b c <> Gt -> lex_compare a c <> Gt.
Proof.
  destruct a as [[a1 a2] a3], b as [[b1 b2] b3], c as [[c1 c2] c3].
  unfold lex_compare.
  destruct (Z.compare_spec a1 b1); try congruence;
    destruct (Z.compare_spec b1 c1); try congruence;
    destruct (Z.compare_spec a1 c1); try congruence; try lia;
    destruct (Z.compare_spec a2 b2); try congruence;
    destruct (Z.compare_spec b2 c2); try congruence;
    destruct (Z.compare_spec a2 c2); try congruence; try lia;
    destruct (Z.compare_spec a3 b3); try congruence;
    destruct (Z.compare_spec b3 c3); try congruence;
    destruct (Z.compare_spec a3 c3); try congruence; lia.
Qed.

Lemma is_nan_number x : PrimFloat.is_nan x = false <-> number x.
Proof.
  unfold PrimFloat.is_nan, number. rewrite FloatAxioms.eqb_spec. unfold SFeqb.
  destruct (Prim2SF x) eqn:E.
  - rewrite SFcompare_key, lex_compare_refl by congruence. simpl. split; congruence.
  - rewrite SFcompare_key, lex_compare_refl by congruence. simpl. split; congruence.
  - simpl. split; congruence.
  - rewrite SFcompare_key, lex_compare_refl by congruence. simpl. split; congruence.
Qed.

Lemma ltb_rank x y :
  number x -> number y ->
  (x <? y)%float = match lex_compare (rank x) (rank y) with Lt => true | _ => false end.
Proof.
  intros Hx Hy. rewrite FloatAxioms.ltb_spec. unfold SFltb, rank.
  rewrite SFcompare_key by assumption. reflexivity.
Qed.

Lemma leb_rank x y :
  number x -> number y ->
  (x <=? y)%float = match lex_compare (rank x) (rank y) with Gt => false | _ => true end.
Proof.
  intros Hx Hy. rewrite FloatAxioms.leb_spec. unfold SFleb, rank.
  rewrite SFcompare_key by assumption.
  destruct (lex_compare _ _); reflexivity.
Qed.

Lemma eqb_rank x y :
  (x =? y)%float = true -> number x /\ number y /\ rank x = rank y.
Proof.
  rewrite FloatAxioms.eqb_spec. unfold SFeqb, number, rank. intros H.
  assert (Hx : Prim2SF x <> S754_nan).
  { intros E. rewrite E in H. discriminate. }
  assert (Hy : Prim2SF y <> S754_nan).
  { intros E. rewrite E in H. destruct (Prim2SF x); discriminate. }
  rewrite SFcompare_key in H by assumption.
  repeat split; try assumption.
  apply lex_compare_eq. destruct (lex_compare _ _); congruence.
Qed.

(** A comparison with NaN on the left is false. *)
Lemma ltb_nan_l x y : ~ number x -> (x <? y)%float = false.
Proof.
  unfold number. intros H. rewrite FloatAxioms.ltb_spec. unfold SFltb.
  destruct (Prim2SF x); try (exfalso; apply H; congruence). reflexivity.
Qed.

Lemma ltb_nan_r x y : ~ number y -> (x <? y)%float = false.
Proof.
  unfold number. intros H. rewrite FloatAxioms.ltb_spec. unfold SFltb.
  destruct (Prim2SF y); try (exfalso; apply H; congruence).
  destruct (Prim2SF x); reflexivity.
Qed.

Lemma number_dec x : number x \/ ~ number x.
Proof.
  unfold number. destruct (Prim2SF x); [left | left | right | left]; congruence.
Qed.

End FloatOrder.

Section Tiers.

(** [a < b] and [b <= c] give [a < c]. *)
Lemma lex_compare_lt_le_trans a b c :
  lex_compare a b = Lt -> lex_compare b c <> Gt -> lex_compare a c = Lt.
Proof.
  destruct a as [[a1 a2] a3], b as [[b1 b2] b3], c as [[c1 c2] c3].
  unfold lex_compare.
  destruct (Z.compare_spec a1 b1); try congruence;
    destruct (Z.compare_spec b1 c1); try congruence;
    destruct (Z.compare_spec a1 c1); try congruence; try lia;
    destruct (Z.compare_spec a2 b2); try congruence;
    destruct (Z.compare_spec b2 c2); try congruence;
    destruct (Z.compare_spec a2 c2); try congruence; try lia;
    destruct (Z.compare_spec a3 b3); try congruence;
    destruct (Z.compare_spec b3 c3); try congruence;
    destruct (Z.compare_spec a3 c3); try congruence; lia.
Qed.

Lemma billion_number : number (int_to_float 1000000000).
Proof. vm_compute. congruence. Qed.

Lemma ten_billion_number : number (int_to_float 10000000000).
Proof. vm_compute. congruence. Qed.

(** A market cap that is a number is in exactly one tier. *)
Lemma one_tier c :
  number (cap c) ->
  (is_large c = true /\ is_mid c = false /\ is_small c = false) \/
  (is_large c = false /\ is_mid c = true /\ is_small c = false) \/
  (is_large c = false /\ is_mid c = false /\ is_small c = true).
Proof.
  intros H. unfold is_large, is_mid, is_small.
  pose proof billion_number as N1. pose proof ten_billion_number as N2.
  rewrite !leb_rank, !ltb_rank by assumption.
  rewrite (lex_compare_antisym (rank (cap c)) (rank (int_to_float 10000000000))).
  rewrite (lex_compare_antisym (rank (cap c)) (rank (int_to_float 1000000000))).
  assert (L : lex_compare (rank (cap c)) (rank (int_to_float 1000000000)) = Lt ->
              lex_compare (rank (cap c)) (rank (int_to_float 10000000000)) = Lt).
  { intros E. apply (lex_compare_lt_le_trans _ _ _ E). vm_compute. discriminate. }
  destruct (lex_compare (rank (cap c)) (rank (int_to_float 1000000000))) eqn:E2;
    destruct (lex_compare (rank (cap c)) (rank (int_to_float 10000000000))) eqn:E1;
    simpl; auto; specialize (L eq_refl); discriminate.
Qed.

Lemma tier_counts df :
  Forall (fun c => number (cap c)) df ->
  (large_cap df + mid_cap df + small_cap df = List.length df)%nat.
Proof.
  unfold large_cap, mid_cap, small_cap.
  induction 1 as [|c df Hc _ IH]; simpl; [reflexivity|].
  destruct (one_tier c Hc) as [(-> & -> & ->) | [(-> & -> & ->) | (-> & -> & ->)]];
    simpl; lia.
Qed.

(** What [dropna] keeps has numbers in its three columns. *)
Lemma dropna_numbers data :
  Forall (fun c => number (price c) /\ number (change c) /\ number (cap c))
         (dropna data).
Proof.
  induction data as [|r data IH]; simpl; [constructor|].
  unfold qualify, notna.
  destruct (Change24h_Percent r) as [x|]; [|exact IH].
  destruct (PrimFloat.is_nan x) eqn:Ex; [exact IH|].
  destruct (PriceUSD r) as [y|]; [|exact IH].
  destruct (PrimFloat.is_nan y) eqn:Ey; [exact IH|].
  destruct (MarketCapUSD r) as [z|]; [|exact IH].
  destruct (PrimFloat.is_nan z) eqn:Ez; [exact IH|].
  constructor; [|exact IH].
  simpl. rewrite <- !is_nan_number. auto.
Qed.

End Tiers.

(** C4.  A record whose market cap is a number is counted in exactly one of
    the three tiers, so over the qualifying records the three counts add up
    to the number of records; Large is [cap >= 10_000_000_000] with no
    upper bound, Mid is [cap >= 1_000_000_000] and [cap < 10_000_000_000],
    Small is [cap < 1_000_000_000]; a cap of exactly 10_000_000_000 is
    Large and not Mid, one of exactly 1_000_000_000 is Mid and not Small. *)
Theorem cap_tiers_partition :
  (forall c,
      is_large c = (10000000000 <=? cap c)%float /\
      is_mid c = ((1000000000 <=? cap c) && (cap c <? 10000000000))%float /\
      is_small c = (cap c <? 1000000000)%float) /\
  (forall c,
      number (cap c) ->
      (is_large c = true /\ is_mid c = false /\ is_small c = false) \/
      (is_large c = false /\ is_mid c = true /\ is_small c = false) \/
      (is_large c = false /\ is_mid c = false /\ is_small c = true)) /\
  (forall data,
      (large_cap (dropna data) + mid_cap (dropna data) + small_cap (dropna data) =
       List.length (dropna data))%nat) /\
  (forall c,
      cap c = 10000000000%float -> is_large c = true /\ is_mid c = false) /\
  (forall c,
      cap c = 1000000000%float -> is_mid c = true /\ is_small c = false) /\
  (forall c, cap c = PrimFloat.infinity -> is_large c = true).
Proof.
  split; [intros c; repeat split; reflexivity|].
  split; [exact one_tier|].
  split.
  { intros data. apply tier_counts.
    eapply Forall_impl; [|apply dropna_numbers]. simpl. tauto. }
  unfold is_large, is_mid, is_small.
  split; [|split]; intros c E; rewrite E;
    [split; reflexivity | split; reflexivity | reflexivity].
Qed.

(** A cap of 2.5 billion is a number, and is Mid. *)
Lemma cap_tiers_partition_witness :
  let c := {| coin_name := "ADA"; price := 1%float; change := 0%float;
              cap := 2500000000%float |} in
  is_large c = false /\ is_mid c = true /\ is_small c = false.
Proof.
  intros c.
  destruct cap_tiers_partition as (_ & H & _).
  assert (N : number (cap c)) by (vm_compute; congruence).
  destruct (H c N) as [(E & _) | [E | (_ & E & _)]];
    [exfalso; vm_compute in E; discriminate | exact E
    | exfalso; vm_compute in E; discriminate].
Defined.

(** ** Printing and raising *)

Section IO.

Lemma io_bind_print {B : Type} l (k : unit -> io B) :
  io_bind (print l) k = (l :: fst (k tt), snd (k tt)).
Proof. unfold io_bind, print. destruct (k tt). reflexivity. Qed.

Lemma io_bind_lift_ok {A B : Type} (a : A) (k : A -> io B) :
  io_bind (lift (Ok a)) k = k a.
Proof. unfold io_bind, lift. destruct (k a). reflexivity. Qed.

Lemma io_bind_lift_raise {A B : Type} e (k : A -> io B) :
  io_bind (lift (Raise e)) k = ([], Raise e).
Proof. reflexivity. Qed.

End IO.

(** ** The pairwise sum *)

Section Sums.

Lemma pairwise_sum_rec_O a : pairwise_sum_rec 0 a = block_sum a.
Proof.
  unfold pairwise_sum_rec. destruct (List.length a <=? 128)%nat; reflexivity.
Qed.

Lemma pairwise_sum_rec_S fuel a :
  pairwise_sum_rec (S fuel) a =
  if (List.length a <=? 128)%nat then block_sum a
  else
    let n2 := (List.length a / 2 - (List.length a / 2) mod 8)%nat in
    (pairwise_sum_rec fuel (firstn n2 a) + pairwise_sum_rec fuel (skipn n2 a))%float.
Proof. reflexivity. Qed.

(** Both parts of an array of more than 128 entries are shorter than the
    array. *)
Lemma halves_shorter n :
  (128 < n)%nat ->
  (0 < n / 2 - (n / 2) mod 8 < n)%nat.
Proof.
  intros H.
  pose proof (Nat.div_mod_eq n 2) as D.
  pose proof (Nat.mod_upper_bound n 2 ltac:(discriminate)) as M.
  pose proof (Nat.mod_upper_bound (n / 2) 8 ltac:(discriminate)) as M8.
  lia.
Qed.

(** More fuel than the array has entries changes nothing. *)
Lemma pairwise_sum_rec_fuel : forall f1 f2 a,
  (List.length a <= f1)%nat -> (List.length a <= f2)%nat ->
  pairwise_sum_rec f1 a = pairwise_sum_rec f2 a.
Proof.
  assert (Short : forall f a,
             (List.length a <= 128)%nat -> pairwise_sum_rec f a = block_sum a).
  { intros f a H. apply Nat.leb_le in H.
    destruct f; [apply pairwise_sum_rec_O | rewrite pairwise_sum_rec_S, H];
      reflexivity. }
  induction f1 as [|f1 IH]; intros f2 a H1 H2.
  - rewrite !Short by lia. reflexivity.
  - destruct (Nat.le_gt_cases (List.length a) 128) as [L | L].
    + rewrite !Short by lia. reflexivity.
    + destruct f2 as [|f2]; [lia|].
      rewrite !pairwise_sum_rec_S.
      assert (E : (List.length a <=? 128)%nat = false) by (apply Nat.leb_gt; lia).
      rewrite E. cbv zeta.
      pose proof (halves_shorter (List.length a) L) as B.
      f_equal; apply IH; rewrite ?length_firstn, ?length_skipn; lia.
Qed.

(** The recursion of [pairwise_sum] never runs out of fuel: an array of
    more than 128 entries is the sum of its two parts. *)
Lemma pairwise_sum_halves a :
  (128 < List.length a)%nat ->
  let n2 := (List.length a / 2 - (List.length a / 2) mod 8)%nat in
  pairwise_sum a = (pairwise_sum (firstn n2 a) + pairwise_sum (skipn n2 a))%float.
Proof.
  intros L n2. unfold pairwise_sum at 1.
  pose proof (halves_shorter (List.length a) L) as B. fold n2 in B.
  destruct (List.length a) as [|f] eqn:E; [lia|].
  rewrite pairwise_sum_rec_S, E.
  assert (E' : (S f <=? 128)%nat = false) by (apply Nat.leb_gt; lia).
  rewrite E'. cbv zeta. fold n2. unfold pairwise_sum.
  f_equal; apply pairwise_sum_rec_fuel;
    rewrite ?length_firstn, ?length_skipn; lia.
Qed.

End Sums.

(** ** Looking up the largest and the smallest entry *)

Section Lookup.

Lemma argmax_from_bound l : forall i bi bv,
  (bi < i)%nat -> (argmax_from l i bi bv < i + List.length l)%nat.
Proof.
  induction l as [|x l IH]; intros i bi bv H; simpl; [lia|].
  destruct (bv <? x)%float.
  - specialize (IH (S i) i x). lia.
  - specialize (IH (S i) bi bv). lia.
Qed.

(** On a column that starts with a number, [idxmax] answers with a
    position of the column, whatever the pandas. *)
Lemma idxmax_ok pd x l :
  number x ->
  exists i, idxmax pd (x :: l) = Ok (Some i) /\ (i < List.length (x :: l))%nat.
Proof.
  intros H. apply is_nan_number in H. unfold idxmax.
  cbn [forallb]. rewrite H. cbn [andb].
  eexists. split; [reflexivity|].
  pose proof (argmax_from_bound (map (fillna PrimFloat.neg_infinity) l) 1 0
                (fillna PrimFloat.neg_infinity x)) as B.
  rewrite length_map in B. simpl. lia.
Qed.

Lemma opp_number x : number x -> number (- x)%float.
Proof.
  unfold number. rewrite FloatAxioms.opp_spec. destruct (Prim2SF x); simpl; congruence.
Qed.

Lemma idxmin_ok pd x l :
  number x ->
  exists i, idxmin pd (x :: l) = Ok (Some i) /\ (i < List.length (x :: l))%nat.
Proof.
  intros H. unfold idxmin. cbn [map].
  destruct (idxmax_ok pd (- x)%float (map PrimFloat.opp l) (opp_number x H))
    as (i & E & B).
  exists i. split; [exact E|]. simpl in *. rewrite length_map in B. exact B.
Qed.

Lemma loc_ok df i : (i < List.length df)%nat -> exists c, loc df (Some i) = Ok c.
Proof.
  intros H. unfold loc. destruct (nth_error df i) eqn:E; [eauto|].
  apply nth_error_None in E. lia.
Qed.

End Lookup.

(** ** Sentiment *)

Section Sentiment.



Lemma display_advanced_analysis_ok pd c df :
  number (price c) -> snd (display_advanced_analysis pd (c :: df)) = Ok tt.
Proof.
  intros H. unfold display_advanced_analysis. rewrite io_bind_print.
  cbn [snd map].
  destruct (idxmax_ok pd (price c) (map price df) H) as (i & Ei & Bi).
  destruct (idxmin_ok pd (price c) (map price df) H) as (j & Ej & Bj).
  simpl List.length in Bi, Bj. rewrite length_map in Bi, Bj.
  destruct (loc_ok (c :: df) i Bi) as (hi & Hhi).
  destruct (loc_ok (c :: df) j Bj) as (lo & Hlo).
  rewrite Ei, io_bind_lift_ok, Hhi, io_bind_lift_ok.
  rewrite Ej, io_bind_lift_ok, Hlo, io_bind_lift_ok.
  reflexivity.
Qed.


End Sentiment.



(** ** Dividing by zero *)

Section Division.

Lemma nan_is_nan x : Prim2SF x = S754_nan -> x = PrimFloat.nan.
Proof. intros H. apply Prim2SF_inj. rewrite H. reflexivity. Qed.

(** What compares equal to zero is a zero. *)
Lemma eqb_zero x :
  (x =? 0)%float = true -> exists s, Prim2SF x = S754_zero s.
Proof.
  rewrite FloatAxioms.eqb_spec. change (Prim2SF 0) with (S754_zero false).
  unfold SFeqb. destruct (Prim2SF x) as [s|s| |s m e]; simpl; try discriminate.
  - eauto.
  - destruct s; discriminate.
  - destruct s; discriminate.
Qed.

(** A quotient by zero is NaN or an infinity; nothing is raised. *)
Lemma div_by_zero n d :
  (d =? 0)%float = true ->
  (n / d)%float = PrimFloat.nan \/
  (n / d)%float = PrimFloat.infinity \/
  (n / d)%float = PrimFloat.neg_infinity.
Proof.
  intros H. destruct (eqb_zero d H) as (s & E).
  pose proof (FloatAxioms.div_spec n d) as D. rewrite E in D.
  unfold SF64div, SFdiv in D.
  destruct (Prim2SF n) as [sn|sn| |sn mn en].
  - left. apply nan_is_nan. exact D.
  - right. destruct (xorb sn s); [right | left]; apply Prim2SF_inj;
      rewrite D; reflexivity.
  - left. apply nan_is_nan. exact D.
  - right. destruct (xorb sn s); [right | left]; apply Prim2SF_inj;
      rewrite D; reflexivity.
Qed.

End Division.

(** The weighted-sentiment claim as written (a zero total market cap is a
    failure and no value is produced) does not hold: for one coin with a
    cap of zero the report is printed to the end, with a NaN weighted
    sentiment labelled "Bearish", under either pandas. *)
Lemma weighted_sentiment_zero_cap_prints_nan :
  let df := [ {| coin_name := "A"; price := 1%float; change := 5%float;
                 cap := 0%float |} ] in
  let out := ([ Volatility PrimFloat.nan;
                WeightedSentiment Bearish PrimFloat.nan;
                CapTiers 0 0 1;
                SummaryDetails ("A", "A", "A") ("A", "A", "A") ],
              Ok tt) in
  display_highly_advanced_analysis pandas_2 df = out /\
  display_highly_advanced_analysis pandas_3 df = out.
Proof. vm_compute. split; reflexivity. Qed.

(** C6, as amended.  The second line [display_highly_advanced_analysis]
    prints is the weighted sentiment: the sum of change times cap over the
    sum of the caps, both sums as pandas takes them, with its label; for
    the caps 1e9, 1e9 and the changes 10, -10 it is exactly 0, and for
    eight coins of cap 1 and change 0.1 it is 0.1; when the total market
    cap is zero the division is carried out all the same: the value printed
    is NaN or an infinity, and no exception is raised by it. *)
Theorem weighted_sentiment_is_a_quotient :
  (forall pd df,
      let q := (series_sum (map (fun c => change c * cap c) df) /
                series_sum (map cap df))%float in
      exists first rest,
        fst (display_highly_advanced_analysis pd df) =
        first :: WeightedSentiment (if (0 <? q)%float then Bullish else Bearish) q
              :: rest) /\
  (forall p1 p2,
      weighted_avg_change
        [ {| coin_name := "A"; price := p1; change := 10; cap := 1e9 |};
          {| coin_name := "B"; price := p2; change := -10; cap := 1e9 |} ] =
      0%float) /\
  (forall name p,
      weighted_avg_change
        (repeat {| coin_name := name; price := p; change := 0.1; cap := 1 |} 8) =
      0.1%float) /\
  (forall df,
      (series_sum (map cap df) =? 0)%float = true ->
      weighted_avg_change df = PrimFloat.nan \/
      weighted_avg_change df = PrimFloat.infinity \/
      weighted_avg_change df = PrimFloat.neg_infinity).
Proof.
  split; [|split; [|split]].
  - intros pd df q. unfold display_highly_advanced_analysis.
    rewrite !io_bind_print. cbn [fst]. eauto.
  - reflexivity.
  - reflexivity.
  - intros df H. apply div_by_zero. exact H.
Qed.

(** Two coins whose caps are both zero: the total is zero, and the weighted
    sentiment is NaN or an infinity. *)
Lemma weighted_sentiment_is_a_quotient_witness :
  let df := [ {| coin_name := "A"; price := 1%float; change := 5%float;
                 cap := 0%float |};
              {| coin_name := "B"; price := 2%float; change := (-3)%float;
                 cap := 0%float |} ] in
  weighted_avg_change df = PrimFloat.nan \/
  weighted_avg_change df = PrimFloat.infinity \/
  weighted_avg_change df = PrimFloat.neg_infinity.
Proof.
  intros df.
  destruct weighted_sentiment_is_a_quotient as (_ & _ & _ & H).
  apply (H df). reflexivity.
Defined.

(** ** Min-max normalisation of a column without spread *)

Section Degenerate.

Lemma lex_compare_le_antisym a b :
  lex_compare a b <> Gt -> lex_compare b a <> Gt -> a = b.
Proof.
  intros H1 H2. apply lex_compare_eq. rewrite lex_compare_antisym in H2.
  destruct (lex_compare a b); simpl in H2; congruence.
Qed.

(** Taking the smaller, or the larger, of the running value and the next
    entry: the steps of [series_min] and [series_max]. *)
Lemma notnan_numbers l v : In v (notnan l) <-> In v l /\ number v.
Proof.
  unfold notnan. rewrite filter_In, <- is_nan_number.
  destruct (PrimFloat.is_nan v); simpl; intuition congruence.
Qed.

Lemma fold_min_below rest : forall m,
  number m ->
  let r := fold_left (fun m y => if (y <? m)%float then y else m) rest m in
  number r /\ lex_compare (rank r) (rank m) <> Gt /\
  forall v, In v rest -> number v -> lex_compare (rank r) (rank v) <> Gt.
Proof.
  induction rest as [|y rest IH]; intros m Hm; simpl.
  - rewrite lex_compare_refl. repeat split; [exact Hm | discriminate | tauto].
  - set (m' := if (y <? m)%float then y else m).
    assert (Hm' : number m' /\ lex_compare (rank m') (rank m) <> Gt /\
                  (number y -> lex_compare (rank m') (rank y) <> Gt)).
    { subst m'. destruct (number_dec y) as [Hy | Hy].
      - rewrite (ltb_rank y m Hy Hm).
        destruct (lex_compare (rank y) (rank m)) eqn:E.
        + repeat split; [exact Hm | rewrite lex_compare_refl; discriminate|].
          intros _. rewrite lex_compare_antisym, E. discriminate.
        + repeat split; [exact Hy | congruence|].
          intros _. rewrite lex_compare_refl. discriminate.
        + repeat split; [exact Hm | rewrite lex_compare_refl; discriminate|].
          intros _. rewrite lex_compare_antisym, E. discriminate.
      - rewrite (ltb_nan_l y m Hy).
        repeat split; [exact Hm | rewrite lex_compare_refl; discriminate | tauto]. }
    destruct Hm' as (N' & Lm & Ly).
    destruct (IH m' N') as (Nr & Lr & Lrest).
    repeat split; [exact Nr | |].
    + eapply lex_compare_le_trans; eassumption.
    + intros v [<- | Hv] Nv.
      * eapply lex_compare_le_trans; [exact Lr | exact (Ly Nv)].
      * exact (Lrest v Hv Nv).
Qed.

Lemma fold_max_above rest : forall m,
  number m ->
  let r := fold_left (fun m y => if (m <? y)%float then y else m) rest m in
  number r /\ lex_compare (rank m) (rank r) <> Gt /\
  forall v, In v rest -> number v -> lex_compare (rank v) (rank r) <> Gt.
Proof.
  induction rest as [|y rest IH]; intros m Hm; simpl.
  - rewrite lex_compare_refl. repeat split; [exact Hm | discriminate | tauto].
  - set (m' := if (m <? y)%float then y else m).
    assert (Hm' : number m' /\ lex_compare (rank m) (rank m') <> Gt /\
                  (number y -> lex_compare (rank y) (rank m') <> Gt)).
    { subst m'. destruct (number_dec y) as [Hy | Hy].
      - rewrite (ltb_rank m y Hm Hy).
        destruct (lex_compare (rank m) (rank y)) eqn:E.
        + repeat split; [exact Hm | rewrite lex_compare_refl; discriminate|].
          intros _. rewrite lex_compare_antisym, E. discriminate.
        + repeat split; [exact Hy | congruence|].
          intros _. rewrite lex_compare_refl. discriminate.
        + repeat split; [exact Hm | rewrite lex_compare_refl; discriminate|].
          intros _. rewrite lex_compare_antisym, E. discriminate.
      - rewrite (ltb_nan_r m y Hy).
        repeat split; [exact Hm | rewrite lex_compare_refl; discriminate | tauto]. }
    destruct Hm' as (N' & Lm & Ly).
    destruct (IH m' N') as (Nr & Lr & Lrest).
    repeat split; [exact Nr | |].
    + eapply lex_compare_le_trans; eassumption.
    + intros v [<- | Hv] Nv.
      * eapply lex_compare_le_trans; [exact (Ly Nv) | exact Lr].
      * exact (Lrest v Hv Nv).
Qed.

(** The difference of two numbers of one rank is a zero, or NaN (for two
    infinities). *)
Lemma sub_same_rank x y :
  number x -> number y -> rank x = rank y ->
  Prim2SF (x - y)%float = S754_nan \/ exists s, Prim2SF (x - y)%float = S754_zero s.
Proof.
  unfold number, rank. rewrite FloatAxioms.sub_spec. unfold SF64sub.
  destruct (Prim2SF x) as [sx|sx| |sx mx ex], (Prim2SF y) as [sy|sy| |sy my ey];
    intros Hx Hy; try congruence;
    destruct sx, sy; simpl; intros E; try discriminate; eauto;
    injection E as E1 E2; subst;
    try (apply Z.opp_inj in E1; subst);
    unfold shl_align; rewrite Z.min_id, Z.sub_diag; simpl;
    rewrite ?Z.pos_sub_diag; simpl; eauto.
Qed.

Lemma div_of_degenerates a b :
  (Prim2SF a = S754_nan \/ exists s, Prim2SF a = S754_zero s) ->
  (Prim2SF b = S754_nan \/ exists s, Prim2SF b = S754_zero s) ->
  (a / b)%float = PrimFloat.nan.
Proof.
  intros Ha Hb. apply nan_is_nan. rewrite FloatAxioms.div_spec. unfold SF64div.
  destruct Ha as [-> | (sa & ->)], Hb as [-> | (sb & ->)]; reflexivity.
Qed.

Lemma sub_nan_l v lo : ~ number v -> Prim2SF (v - lo)%float = S754_nan.
Proof.
  unfold number. intros H. rewrite FloatAxioms.sub_spec.
  destruct (Prim2SF v); try (exfalso; apply H; congruence). reflexivity.
Qed.

(** A column whose largest and smallest entries compare equal normalises
    to NaN throughout. *)
Lemma min_max_norm_nan s :
  (series_max s =? series_min s)%float = true ->
  Forall (fun v => v = PrimFloat.nan) (min_max_norm s).
Proof.
  intros H. destruct (eqb_rank _ _ H) as (Nhi & Nlo & E).
  unfold min_max_norm.
  set (lo := series_min s) in *. set (hi := series_max s) in *.
  assert (B : forall v, In v s -> number v ->
                        lex_compare (rank lo) (rank v) <> Gt /\
                        lex_compare (rank v) (rank hi) <> Gt).
  { subst lo hi. unfold series_min, series_max in *.
    intros v Hv Nv. assert (Hv' : In v (notnan s)) by (apply notnan_numbers; auto).
    destruct (notnan s) as [|x rest] eqn:F; [destruct Hv'|].
    assert (Nx : number x).
    { apply (notnan_numbers s x). rewrite F. left. reflexivity. }
    pose proof (fold_min_below rest x Nx) as (_ & Lx & Lrest).
    pose proof (fold_max_above rest x Nx) as (_ & Ux & Urest).
    destruct Hv' as [<- | Hv']; split; auto. }
  assert (D : Prim2SF (hi - lo)%float = S754_nan \/
              exists s, Prim2SF (hi - lo)%float = S754_zero s)
    by (apply sub_same_rank; assumption).
  apply Forall_forall. intros q Hq. apply in_map_iff in Hq.
  destruct Hq as (v & <- & Hv).
  apply div_of_degenerates; [|exact D].
  destruct (number_dec v) as [Nv | Nv]; [|left; apply sub_nan_l; exact Nv].
  apply sub_same_rank; [exact Nv | exact Nlo |].
  destruct (B v Hv Nv) as (Lv & Uv).
  rewrite E in Uv. apply lex_compare_le_antisym; assumption.
Qed.

End Degenerate.

Section Scores.

Lemma mul_nan_r a : (a * PrimFloat.nan)%float = PrimFloat.nan.
Proof.
  apply nan_is_nan. rewrite FloatAxioms.mul_spec.
  change (Prim2SF PrimFloat.nan) with S754_nan.
  unfold SF64mul. destruct (Prim2SF a); reflexivity.
Qed.

Lemma add_nan_l b : (PrimFloat.nan + b)%float = PrimFloat.nan.
Proof.
  apply nan_is_nan. rewrite FloatAxioms.add_spec.
  change (Prim2SF PrimFloat.nan) with S754_nan. reflexivity.
Qed.

Lemma add_nan_r a : (a + PrimFloat.nan)%float = PrimFloat.nan.
Proof.
  apply nan_is_nan. rewrite FloatAxioms.add_spec.
  change (Prim2SF PrimFloat.nan) with S754_nan.
  unfold SF64add. destruct (Prim2SF a); reflexivity.
Qed.

(** A score with a NaN half is NaN. *)
Lemma score_of_nan mcs : forall chs,
  Forall (fun v => v = PrimFloat.nan) mcs \/ Forall (fun v => v = PrimFloat.nan) chs ->
  Forall (fun v => v = PrimFloat.nan)
         (map (fun '(mc, ch) => (0.5 * mc + 0.5 * ch)%float) (combine mcs chs)).
Proof.
  induction mcs as [|mc mcs IH]; intros [|ch chs] H; simpl; try constructor.
  - destruct H as [H | H]; inversion H; subst.
    + rewrite mul_nan_r. apply add_nan_l.
    + rewrite mul_nan_r. apply add_nan_r.
  - apply IH. destruct H as [H | H]; inversion H; auto.
Qed.

Lemma idxmax_all_nan pd x l :
  Forall (fun v => v = PrimFloat.nan) (x :: l) ->
  idxmax pd (x :: l) =
  match pd with
  | pandas_2 => Ok None
  | pandas_3 => Raise ValueError
  end.
Proof.
  intros H. unfold idxmax.
  assert (E : forallb PrimFloat.is_nan (x :: l) = true).
  { apply forallb_forall. intros v Hv.
    rewrite Forall_forall in H. rewrite (H v Hv). reflexivity. }
  rewrite E. reflexivity.
Qed.

End Scores.

(** The normalisation claim as written (a column without spread is given a
    constant such as 0.5, or NormalizationUndefined is raised) does not
    hold: for two coins with one market cap the normalised caps and the
    scores are NaN, computed by a division of zero by zero. *)
Lemma degenerate_normalisation_divides_silently :
  let df := [ {| coin_name := "A"; price := 1%float; change := 2%float;
                 cap := 1000000000%float |};
              {| coin_name := "B"; price := 2%float; change := (-1)%float;
                 cap := 1000000000%float |} ] in
  series_max (map cap df) = series_min (map cap df) /\
  mc_norm df = [PrimFloat.nan; PrimFloat.nan] /\
  ch_norm df = [1%float; 0%float] /\
  score df = [PrimFloat.nan; PrimFloat.nan].
Proof. vm_compute. repeat split; reflexivity. Qed.

(** C8, as amended.  When the largest and the smallest value of a metric
    compare equal, the quotient [(v - min) / (max - min)] is computed all
    the same: every normalised value of that metric is NaN, and so is every
    score.  No constant is put in and no condition of its own is raised;
    what follows is the failure of the lookup of the best score, before
    anything is printed: [KeyError] from [df.loc] with pandas up to 2.x,
    [ValueError] from [idxmax] with pandas 3. *)
Theorem degenerate_normalisation_is_nan :
  (forall s,
      (series_max s =? series_min s)%float = true ->
      Forall (fun v => v = PrimFloat.nan) (min_max_norm s)) /\
  (forall pd df,
      (series_max (map cap df) =? series_min (map cap df))%float = true \/
      (series_max (map change df) =? series_min (map change df))%float = true ->
      Forall (fun v => v = PrimFloat.nan) (score df) /\
      display_recommendation_assistant pd df =
      ([], Raise match pd with
                 | pandas_2 => KeyError
                 | pandas_3 => ValueError
                 end)).
Proof.
  split; [exact min_max_norm_nan|].
  intros pd df H.
  assert (Hne : df <> []).
  { intros ->. destruct H as [H | H]; vm_compute in H; discriminate. }
  assert (S : Forall (fun v => v = PrimFloat.nan) (score df)).
  { unfold score. apply score_of_nan. unfold mc_norm, ch_norm.
    destruct H as [H | H]; [left | right]; apply min_max_norm_nan; exact H. }
  split; [exact S|].
  unfold display_recommendation_assistant.
  destruct (score df) as [|x l] eqn:E.
  - exfalso. destruct df as [|c df]; [congruence|]. discriminate E.
  - rewrite (idxmax_all_nan pd x l S). destruct pd; reflexivity.
Qed.

(** One coin alone: its cap is both the largest and the smallest. *)
Lemma degenerate_normalisation_is_nan_witness :
  let df := [ {| coin_name := "A"; price := 1%float; change := 2%float;
                 cap := 1000000000%float |} ] in
  score df = [PrimFloat.nan] /\
  display_recommendation_assistant pandas_2 df = ([], Raise KeyError) /\
  display_recommendation_assistant pandas_3 df = ([], Raise ValueError).
Proof.
  intros df.
  destruct degenerate_normalisation_is_nan as (_ & H).
  assert (D : (series_max (map cap df) =? series_min (map cap df))%float = true \/
              (series_max (map change df) =? series_min (map change df))%float
              = true) by (left; reflexivity).
  destruct (H pandas_2 df D) as (S2 & E2). destruct (H pandas_3 df D) as (_ & E3).
  split; [|split; assumption].
  inversion S2 as [|v l Hv Hl]; subst. inversion Hl; subst. reflexivity.
Defined.

(** ** No qualifying record *)

(** C7, at the failing input.  Twenty rows of nine cells whose 24h-change
    cell reads "--" give twenty records, so the guard of [main] lets them
    through; none of them qualifies, and the analysis of the empty frame
    prints a NaN mean labelled "Bearish" and then raises [ValueError] from
    [idxmax], under either pandas.  [main] prints the error and leaves its
    loop: the next page is never loaded.  A page without rows, by contrast,
    is reported as incomplete and the loop goes on. *)
Theorem no_qualifying_record_stops_main :
  let td s := {| text := Ok s; coin_item_symbol := Ok s |} in
  let tr := Ok [td ""; td "1"; td "BTC"; td "$1.00"; td "0.1%"; td "--";
                td "0.3%"; td "$1.2B"; td "$20M"] in
  let r := {| Name := "BTC"; PriceUSD := Some 1%float;
              Change24h_Percent := None;
              MarketCapUSD := Some 1200000000%float |} in
  let browser trs := Driver (Ok trs) (Ok tt) (Ok tt) in
  let stops pd :=
    display_advanced_analysis pd [] =
      ([Sentiment Bearish PrimFloat.nan], Raise ValueError) /\
    main_cycle pd (browser (repeat tr 20)) =
      ([ScrapedData (repeat r 20); Sentiment Bearish PrimFloat.nan;
        UnexpectedError ValueError], Exit) /\
    main pd [browser (repeat tr 20); browser (repeat tr 20)] =
      [ScrapedData (repeat r 20); Sentiment Bearish PrimFloat.nan;
       UnexpectedError ValueError] /\
    main pd [browser []; browser []] = [IncompleteData; IncompleteData] in
  get_top_cryptos (browser (repeat tr 20)) = Ok (repeat r 20) /\
  dropna (repeat r 20) = [] /\
  stops pandas_2 /\ stops pandas_3.
Proof. vm_compute. repeat split; reflexivity. Qed.

(** ** The growth projection *)

(** The projection claim as written (the growth percentage is
    [((1 + rate) ** years - 1) * 100] whatever the positive price, and the
    printed table is the same for every positive price) does not hold in
    binary64 arithmetic: at 50% over 5 years a price of 0.3 gives
    659.37499999999989 where the closed form, and a price of 1, give
    659.375, and the two tables differ in that cell. *)
Lemma growth_percent_depends_on_price :
  growth_percent 0.3%float (n_dec 50 2) 5 = 659.37499999999989%float /\
  growth_percent 1%float (n_dec 50 2) 5 = 659.375%float /\
  compound_percent (N := float) (n_dec 50 2) 5 = 659.375%float /\
  map Growth (projections 0.3%float) =
    [ [("Conservative Growth %", "20.00%"); ("Moderate Growth %", "50.00%");
       ("Aggressive Growth %", "120.00%")];
      [("Conservative Growth %", "148.83%"); ("Moderate Growth %", "659.37%");
       ("Aggressive Growth %", "5,053.63%")];
      [("Conservative Growth %", "519.17%"); ("Moderate Growth %", "5,666.50%");
       ("Aggressive Growth %", "265,499.23%")] ] /\
  map Growth (projections 1%float) =
    [ [("Conservative Growth %", "20.00%"); ("Moderate Growth %", "50.00%");
       ("Aggressive Growth %", "120.00%")];
      [("Conservative Growth %", "148.83%"); ("Moderate Growth %", "659.38%");
       ("Aggressive Growth %", "5,053.63%")];
      [("Conservative Growth %", "519.17%"); ("Moderate Growth %", "5,666.50%");
       ("Aggressive Growth %", "265,499.23%")] ].
Proof. vm_compute. repeat split; reflexivity. Qed.

(** C10, as amended.  In exact arithmetic the growth percentage of lines
    237 and 238 is [((1 + rate) ** years - 1) * 100] for every positive
    price, rate and horizon, hence the same for any two positive prices.
    The code evaluates the same formula on binary64 values: the table is a
    function of the price, the three rates 0.20, 0.50, 1.20 and the three
    horizons 1, 5, 10 alone, and for a price of 100 it prints 20.00%,
    148.83% and 519.17% in its first column. *)
Theorem growth_percent_exact :
  (forall (price rate : Q) (year : nat),
      (0 < price)%Q ->
      (growth_percent price rate year == compound_percent rate year)%Q) /\
  (forall (p1 p2 rate : Q) (year : nat),
      (0 < p1)%Q -> (0 < p2)%Q ->
      (growth_percent p1 rate year == growth_percent p2 rate year)%Q) /\
  (forall price : float,
      map fst (growth_table price) = [1; 5; 10]%nat /\
      map (fun r => map snd (snd r)) (growth_table price) =
      map (fun year =>
             map (fun rate => growth_percent price rate year)
                 [0.2; 0.5; 1.2]%float)
          [1; 5; 10]%nat) /\
  map Growth (projections 100%float) =
    [ [("Conservative Growth %", "20.00%"); ("Moderate Growth %", "50.00%");
       ("Aggressive Growth %", "120.00%")];
      [("Conservative Growth %", "148.83%"); ("Moderate Growth %", "659.38%");
       ("Aggressive Growth %", "5,053.63%")];
      [("Conservative Growth %", "519.17%"); ("Moderate Growth %", "5,666.50%");
       ("Aggressive Growth %", "265,499.23%")] ].
Proof.
  assert (Exact : forall (price rate : Q) (year : nat),
             (0 < price)%Q ->
             (growth_percent price rate year == compound_percent rate year)%Q).
  { intros price rate year H.
    unfold growth_percent, compound_percent, future_price. simpl.
    field. intros E. rewrite E in H. exact (Qlt_irrefl 0 H). }
  split; [exact Exact|]. split; [|split].
  - intros p1 p2 rate year H1 H2. rewrite (Exact p1), (Exact p2) by assumption.
    reflexivity.
  - intros price. split; reflexivity.
  - vm_compute. reflexivity.
Qed.

(** At a price of 100, a rate of one fifth and five years the exact growth
    is 148.832 per cent. *)
Lemma growth_percent_exact_witness :
  (growth_percent (100 # 1) (1 # 5) 5 == 148832 # 1000)%Q.
Proof.
  destruct growth_percent_exact as (H & _).
  rewrite (H (100 # 1) (1 # 5) 5%nat); reflexivity.
Defined.

(** * More of the code *)

Import Csv Terms.

(** X1.  A dollar sign, a comma or a percent sign makes no difference to
    [clean_numeric_text], wherever in the text it stands. *)
Theorem clean_numeric_text_ignores_symbols c s1 s2 :
  c = "$"%char \/ c = ","%char \/ c = "%"%char ->
  clean_numeric_text (PyStr (s1 ++ String c s2)) =
  clean_numeric_text (PyStr (s1 ++ s2)).
Proof.
  intros H. apply clean_numeric_text_ext. apply strip_symbols_insert. exact H.
Qed.

(** "1,234.56" is read as "1234.56". *)
Lemma clean_numeric_text_ignores_symbols_witness :
  clean_numeric_text (PyStr "1,234.56") = clean_numeric_text (PyStr "1234.56").
Proof.
  apply (clean_numeric_text_ignores_symbols "," "1" "234.56").
  right. left. reflexivity.
Defined.

(** X2.  A whitespace character in front of the text or behind it makes no
    difference to [clean_numeric_text]. *)
Theorem clean_numeric_text_ignores_outer_space c s :
  is_space c = true ->
  clean_numeric_text (PyStr (String c s)) = clean_numeric_text (PyStr s) /\
  clean_numeric_text (PyStr (s ++ String c "")) = clean_numeric_text (PyStr s).
Proof.
  intros H. split; apply clean_numeric_text_ext.
  - apply strip_symbols_space_l. exact H.
  - apply strip_symbols_space_r. exact H.
Qed.

(** A blank before "$5", and a blank after it. *)
Lemma clean_numeric_text_ignores_outer_space_witness :
  clean_numeric_text (PyStr " $5") = clean_numeric_text (PyStr "$5") /\
  clean_numeric_text (PyStr "$5 ") = clean_numeric_text (PyStr "$5").
Proof.
  apply (clean_numeric_text_ignores_outer_space " " "$5"). reflexivity.
Defined.

(** ** [clean_numeric_text]: a minus sign in front *)

Section Minus.

Lemma SFopp_binary_round_aux s m e l :
  SFopp (binary_round_aux prec emax s m e l) =
  binary_round_aux prec emax (negb s) m e l.
Proof.
  unfold binary_round_aux.
  destruct (shr_fexp prec emax m e l) as [mrs' e'].
  destruct (shr_fexp prec emax _ e' loc_Exact) as [mrs'' e''].
  destruct (shr_m mrs''); [reflexivity | | reflexivity].
  destruct (e'' <=? emax - prec)%Z; reflexivity.
Qed.

Lemma mul_opp_l x y : (- x * y)%float = (- (x * y))%float.
Proof.
  apply Prim2SF_inj.
  rewrite FloatAxioms.mul_spec, !FloatAxioms.opp_spec, FloatAxioms.mul_spec.
  unfold SF64mul.
  destruct (Prim2SF x) as [sx|sx| |sx mx ex], (Prim2SF y) as [sy|sy| |sy my ey];
    simpl; try reflexivity; try (destruct sx, sy; reflexivity).
  rewrite SFopp_binary_round_aux. destruct sx, sy; reflexivity.
Qed.

(** A first character that is a digit or a point is no whitespace, no sign,
    no underscore and none of the letters and symbols that are removed. *)
Lemma numeric_head a :
  is_digit a || Ascii.eqb a "." = true ->
  is_space a = false /\ is_c_space a = false /\
  Ascii.eqb a "-" = false /\ Ascii.eqb a "+" = false /\ Ascii.eqb a "_" = false /\
  Ascii.eqb a "$" = false /\ Ascii.eqb a "," = false /\ Ascii.eqb a "%" = false /\
  Ascii.eqb a "T" = false /\ Ascii.eqb a "B" = false /\ Ascii.eqb a "M" = false.
Proof.
  destruct a as [[] [] [] [] [] [] [] []]; intros H;
    try discriminate H; repeat split; reflexivity.
Qed.

Lemma rstrip_head sp a s :
  sp a = false -> exists r, rstrip sp (String a s) = String a r.
Proof.
  intros H. simpl. destruct (rstrip sp s); [rewrite H|]; eauto.
Qed.

Lemma read_sign_plain a s :
  Ascii.eqb a "-" = false -> Ascii.eqb a "+" = false ->
  read_sign (String a s) = (false, String a s).
Proof.
  destruct a as [[] [] [] [] [] [] [] []]; intros H1 H2;
    try discriminate H1; try discriminate H2; reflexivity.
Qed.

Lemma strip_underscores_after_minus s :
  strip_underscores (Some "-"%char) s = strip_underscores None s.
Proof.
  destruct s as [|a s]; simpl; [reflexivity|].
  destruct (Ascii.eqb a "_"); reflexivity.
Qed.

Lemma strip_underscores_head a s u :
  Ascii.eqb a "_" = false ->
  strip_underscores None (String a s) = Some u -> exists u', u = String a u'.
Proof.
  intros H. simpl. rewrite H.
  destruct (strip_underscores (Some a) s); simpl; [|discriminate].
  intros E. injection E as <-. eauto.
Qed.

(** [float] of a minus sign and a text that begins with a digit or a point
    is [float] of the text, negated. *)
Lemma float_of_str_minus s :
  begins_numeric s = true ->
  float_of_str (String "-" s) =
  match float_of_str s with
  | Ok x => Ok (- x)%float
  | Raise e => Raise e
  end.
Proof.
  destruct s as [|a s]; [discriminate|]. intros H.
  destruct (numeric_head a H) as (_ & Hc & Hm & Hp & Hu & _).
  unfold float_of_str.
  change (contains "_" (String "-" (String a s))) with (contains "_" (String a s)).
  assert (U : strip_underscores None (String "-" (String a s)) =
              option_map (String "-") (strip_underscores None (String a s))).
  { change (strip_underscores None (String "-" (String a s)))
      with (option_map (String "-")
              (strip_underscores (Some "-"%char) (String a s))).
    rewrite strip_underscores_after_minus. reflexivity. }
  set (cleaned := if contains "_" (String a s)
                  then strip_underscores None (String a s)
                  else Some (String a s)).
  assert (C : (if contains "_" (String a s)
               then strip_underscores None (String "-" (String a s))
               else Some (String "-" (String a s))) =
              option_map (String "-") cleaned).
  { subst cleaned. rewrite U. destruct (contains "_" (String a s)); reflexivity. }
  rewrite C.
  assert (Hd : forall u, cleaned = Some u -> exists u', u = String a u').
  { subst cleaned. intros u. destruct (contains "_" (String a s)).
    - apply strip_underscores_head. exact Hu.
    - intros E. injection E as <-. eauto. }
  destruct cleaned as [u|]; [|reflexivity].
  destruct (Hd u eq_refl) as (u' & ->). cbn [option_map].
  destruct (rstrip_head is_c_space a u' Hc) as (r & R).
  assert (L1 : lstrip is_c_space (String "-" (String a u')) =
               String "-" (String a u')) by reflexivity.
  assert (L2 : lstrip is_c_space (String a u') = String a u')
    by (simpl; rewrite Hc; reflexivity).
  rewrite L1, L2.
  assert (R' : rstrip is_c_space (String "-" (String a u')) =
               String "-" (String a r)).
  { change (rstrip is_c_space (String "-" (String a u')))
      with (match rstrip is_c_space (String a u') with
            | EmptyString => String "-" EmptyString
            | r => String "-" r
            end).
    rewrite R. reflexivity. }
  rewrite R', R.
  change (read_sign (String "-" (String a r))) with (true, String a r).
  rewrite (read_sign_plain a r Hm Hp).
  destruct (parse_decimal (String a r)); [reflexivity|].
  destruct (parse_inf_or_nan (String a r)); reflexivity.
Qed.

End Minus.

(** X3.  For a text that begins with a digit or a point, a minus sign in
    front negates what [clean_numeric_text] returns, and changes nothing
    when it returns [None]. *)
Theorem clean_numeric_text_minus s :
  begins_numeric s = true ->
  clean_numeric_text (PyStr (String "-" s)) =
  match clean_numeric_text (PyStr s) with
  | Ok (Some x) => Ok (Some (- x)%float)
  | r => r
  end.
Proof.
  destruct s as [|a s]; [discriminate|]. intros H.
  destruct (numeric_head a H)
    as (Hs & _ & _ & _ & _ & H1 & H2 & H3 & HT & HB & HM).
  assert (Head : exists r, strip_symbols (String a s) = String a r /\
                           strip_symbols (String "-" (String a s)) =
                           String "-" (String a r)).
  { unfold strip_symbols, strip. simpl. rewrite H1. simpl. rewrite H2. simpl.
    rewrite H3. simpl lstrip. rewrite Hs.
    set (w := remove "%" (remove "," (remove "$" s))).
    destruct (rstrip_head is_space a w Hs) as (r & R).
    exists r. split; [exact R|].
    change (rstrip is_space (String "-" (String a w)))
      with (match rstrip is_space (String a w) with
            | EmptyString => String "-" EmptyString
            | r => String "-" r
            end).
    rewrite R. reflexivity. }
  destruct Head as (r & E & E').
  rewrite !clean_numeric_text_scaled, E', E.
  assert (Split : split_multiplier (String "-" (String a r)) =
                  (fst (split_multiplier (String a r)),
                   String "-" (snd (split_multiplier (String a r)))) /\
                  begins_numeric (snd (split_multiplier (String a r))) = true).
  { unfold split_multiplier. simpl. rewrite HT, HB, HM.
    destruct (contains "T" r); [split; [reflexivity | exact H]|].
    destruct (contains "B" r); [split; [reflexivity | exact H]|].
    destruct (contains "M" r); split; try reflexivity; exact H. }
  destruct Split as (-> & Hrem). cbn [fst snd].
  unfold scaled. rewrite (float_of_str_minus _ Hrem).
  destruct (float_of_str (snd (split_multiplier (String a r)))) as [x|e];
    [|reflexivity].
  unfold float_mul_int. rewrite mul_opp_l. reflexivity.
Qed.

(** "-1.5B" is the negation of "1.5B". *)
Lemma clean_numeric_text_minus_witness :
  clean_numeric_text (PyStr "-1.5B") = Ok (Some (-1500000000)%float).
Proof. exact (clean_numeric_text_minus "1.5B" eq_refl). Defined.

(** ** Rows: what is read, and when a record is made *)

Section Readings.

Lemma nth_error_in_range {A : Type} (l : list A) i :
  (i < List.length l)%nat -> exists a, nth_error l i = Some a.
Proof.
  intros H. destruct (nth_error l i) eqn:E; [eauto|].
  apply nth_error_None in E. lia.
Qed.

Lemma parse_row_readings cols :
  (9 <= List.length cols)%nat ->
  exists sym t3 t5 t7,
    readings cols = (Some sym, Some t3, Some t5, Some t7) /\
    parse_row cols = parse_readings sym t3 t5 t7.
Proof.
  intros H.
  destruct (nth_error_in_range cols 2 ltac:(lia)) as (c2 & E2).
  destruct (nth_error_in_range cols 3 ltac:(lia)) as (c3 & E3).
  destruct (nth_error_in_range cols 5 ltac:(lia)) as (c5 & E5).
  destruct (nth_error_in_range cols 7 ltac:(lia)) as (c7 & E7).
  exists (coin_item_symbol c2), (text c3), (text c5), (text c7).
  unfold readings, parse_row, parse_readings, getitem.
  rewrite E2, E3, E5, E7. cbn [option_map bind].
  split; [reflexivity|].
  destruct (coin_item_symbol c2) as [name|]; [|reflexivity]. cbn [bind].
  destruct (text c3) as [u3|]; [|reflexivity]. cbn [bind].
  destruct (clean_numeric_text (PyStr u3)); [|reflexivity]. cbn [bind].
  destruct (text c5) as [u5|]; [|reflexivity]. cbn [bind].
  destruct (clean_numeric_text (PyStr u5)); [|reflexivity]. cbn [bind].
  destruct (text c7); reflexivity.
Qed.

Lemma clean_numeric_text_text_ok t : exists r, clean_numeric_text (PyStr t) = Ok r.
Proof. rewrite clean_numeric_text_scaled. apply scaled_total. Qed.

End Readings.

(** X4.  A row of at least nine cells whose symbol and three texts can be
    read always yields a record, appended at the end of [crypto_data]:
    its name is the symbol, and each number is what [clean_numeric_text]
    makes of the text, be it [None]. *)
Theorem readable_row_is_appended cols name t3 t5 t7 :
  (9 <= List.length cols)%nat ->
  readings cols = (Some (Ok name), Some (Ok t3), Some (Ok t5), Some (Ok t7)) ->
  exists price change_24h market_cap,
    clean_numeric_text (PyStr t3) = Ok price /\
    clean_numeric_text (PyStr t5) = Ok change_24h /\
    clean_numeric_text (PyStr t7) = Ok market_cap /\
    forall crypto_data,
      row_step crypto_data cols =
      Ok (crypto_data ++
          [ {| Name := name; PriceUSD := price;
               Change24h_Percent := change_24h; MarketCapUSD := market_cap |} ]).
Proof.
  intros H R.
  destruct (parse_row_readings cols H) as (sym & u3 & u5 & u7 & R' & P).
  rewrite R in R'. injection R' as <- <- <- <-.
  destruct (clean_numeric_text_text_ok t3) as (price & E3).
  destruct (clean_numeric_text_text_ok t5) as (change_24h & E5).
  destruct (clean_numeric_text_text_ok t7) as (market_cap & E7).
  exists price, change_24h, market_cap. repeat split; try assumption.
  intros crypto_data. unfold row_step.
  assert (L : (List.length cols <? 9)%nat = false) by (apply Nat.ltb_ge; exact H).
  rewrite L, P. unfold parse_readings. cbn [bind]. rewrite E3. cbn [bind].
  rewrite E5. cbn [bind]. rewrite E7. reflexivity.
Qed.

(** Nine cells that all read "n/a": a record with the name "n/a" and no
    number is appended. *)
Lemma readable_row_is_appended_witness :
  exists price change_24h market_cap,
    clean_numeric_text (PyStr "n/a") = Ok price /\
    clean_numeric_text (PyStr "n/a") = Ok change_24h /\
    clean_numeric_text (PyStr "n/a") = Ok market_cap /\
    forall crypto_data,
      row_step crypto_data
        (repeat {| text := Ok "n/a"; coin_item_symbol := Ok "n/a" |} 9) =
      Ok (crypto_data ++
          [ {| Name := "n/a"; PriceUSD := price;
               Change24h_Percent := change_24h; MarketCapUSD := market_cap |} ]).
Proof.
  apply (readable_row_is_appended
           (repeat {| text := Ok "n/a"; coin_item_symbol := Ok "n/a" |} 9)
           "n/a" "n/a" "n/a" "n/a").
  - simpl. lia.
  - reflexivity.
Defined.

(** X5.  Of a row of at least nine cells the loop reads nothing but the
    symbol under the third cell and the texts of the fourth, sixth and
    eighth: two such rows with the same four readings leave [crypto_data]
    the same. *)
Theorem row_step_reads_four_cells cols cols' crypto_data :
  (9 <= List.length cols)%nat -> (9 <= List.length cols')%nat ->
  readings cols = readings cols' ->
  row_step crypto_data cols = row_step crypto_data cols'.
Proof.
  intros H H' R.
  destruct (parse_row_readings cols H) as (sym & t3 & t5 & t7 & E & P).
  destruct (parse_row_readings cols' H') as (sym' & t3' & t5' & t7' & E' & P').
  rewrite R, E' in E. injection E as <- <- <- <-.
  unfold row_step.
  assert (L : (List.length cols <? 9)%nat = false) by (apply Nat.ltb_ge; exact H).
  assert (L' : (List.length cols' <? 9)%nat = false) by (apply Nat.ltb_ge; exact H').
  rewrite L, L', P, P'. reflexivity.
Qed.

(** Nine cells and twelve cells that read the same. *)
Lemma row_step_reads_four_cells_witness :
  row_step [] (repeat {| text := Ok "7"; coin_item_symbol := Ok "X" |} 9) =
  row_step [] (repeat {| text := Ok "7"; coin_item_symbol := Ok "X" |} 12).
Proof.
  apply row_step_reads_four_cells; [simpl; lia | simpl; lia | reflexivity].
Defined.

(** ** [main]: incomplete pages, saved batches, the end of the loop *)

Section Loop.

Lemma io_bind_fst {A B : Type} (c : io A) (k : A -> io B) :
  fst (io_bind c k) =
  fst c ++ match snd c with Ok a => fst (k a) | Raise _ => [] end.
Proof.
  destruct c as [out [a|e]]; simpl; [|rewrite app_nil_r; reflexivity].
  destruct (k a). reflexivity.
Qed.

Lemma io_bind_snd {A B : Type} (c : io A) (k : A -> io B) :
  snd (io_bind c k) =
  match snd c with Ok a => snd (k a) | Raise e => Raise e end.
Proof.
  destruct c as [out [a|e]]; simpl; [|reflexivity].
  destruct (k a). reflexivity.
Qed.

Lemma io_bind_Forall {A B : Type} (P : line -> Prop) (c : io A) (k : A -> io B) :
  Forall P (fst c) -> (forall a, Forall P (fst (k a))) ->
  Forall P (fst (io_bind c k)).
Proof.
  intros Hc Hk. rewrite io_bind_fst. apply Forall_app. split; [exact Hc|].
  destruct (snd c); [apply Hk | constructor].
Qed.

Ltac no_save :=
  repeat first
    [ apply io_bind_Forall; [|intros]
    | apply Forall_nil
    | apply Forall_cons; [reflexivity|] ].

Lemma name_at_silent df label :
  Forall (fun l => is_saved l = false) (fst (name_at df label)).
Proof. unfold name_at. no_save. Qed.

Lemma display_advanced_analysis_no_save pd df :
  Forall (fun l => is_saved l = false) (fst (display_advanced_analysis pd df)).
Proof. unfold display_advanced_analysis. no_save. Qed.

Lemma display_highly_advanced_analysis_no_save pd df :
  Forall (fun l => is_saved l = false)
         (fst (display_highly_advanced_analysis pd df)).
Proof.
  unfold display_highly_advanced_analysis. no_save; apply name_at_silent.
Qed.

Lemma display_recommendation_assistant_no_save pd df :
  Forall (fun l => is_saved l = false)
         (fst (display_recommendation_assistant pd df)).
Proof. unfold display_recommendation_assistant. no_save. Qed.

Lemma not_among (out : list line) n :
  Forall (fun l => is_saved l = false) out -> ~ In (SavedToCsv n) out.
Proof.
  intros F H. rewrite Forall_forall in F. specialize (F _ H). discriminate.
Qed.

(** The CSV line of [analysis] is its last step: it is printed only when
    the three reports went through, and counts the rows of [data]. *)
Lemma analysis_saved pd data n :
  In (SavedToCsv n) (fst (analysis pd data)) ->
  n = List.length data /\ snd (analysis pd data) = Ok tt.
Proof.
  unfold analysis. rewrite !io_bind_fst, !io_bind_snd. cbn [print fst snd].
  pose proof (display_advanced_analysis_no_save pd (dropna data)) as F1.
  pose proof (display_highly_advanced_analysis_no_save pd (dropna data)) as F2.
  pose proof (display_recommendation_assistant_no_save pd (dropna data)) as F3.
  destruct (display_advanced_analysis pd (dropna data)) as [o1 [[]|e1]];
    destruct (display_highly_advanced_analysis pd (dropna data)) as [o2 [[]|e2]];
    destruct (display_recommendation_assistant pd (dropna data)) as [o3 [[]|e3]];
    cbn [fst snd] in *; intros H;
    repeat (apply in_app_or in H; destruct H as [H | H]);
    try (match goal with
         | H : In _ ?o, F : Forall _ ?o |- _ => exfalso; exact (not_among _ _ F H)
         end);
    simpl in H; intuition (try discriminate; try congruence).
Qed.

(** What the handler returns, whatever made the scrape fail. *)
Lemma handler_empty (shot : res unit) (data : list record) :
  (u <- shot ;; Ok []) = Ok data -> data = [].
Proof. destruct shot; simpl; congruence. Qed.

(** A frame that [get_top_cryptos] returns has at most [TOP_N] rows. *)
Lemma get_top_cryptos_length s data :
  get_top_cryptos s = Ok data -> (List.length data <= TOP_N)%nat.
Proof.
  assert (Z : (List.length (@nil record) <= TOP_N)%nat) by (simpl; lia).
  destruct s as [e | page shot quit]; unfold get_top_cryptos, finally, try_except.
  - intros E. injection E as <-. exact Z.
  - destruct quit as [u|e]; [|discriminate].
    destruct page as [trs|e]; cbn [bind].
    + destruct (rows_fetched_or_not (firstn TOP_N trs))
        as [(raw & E) | (before & e & after & E)]; unfold row in *; rewrite E.
      * rewrite for_rows_keep_records. cbn [app]. intros D. injection D as <-.
        rewrite keep_records_length.
        etransitivity; [apply filter_length_le|].
        rewrite <- (length_map (@Ok (list cell))), <- E. apply firstn_le_length.
      * rewrite for_rows_raise. intros D. apply handler_empty in D. subst.
        exact Z.
    + intros D. apply handler_empty in D. subst. exact Z.
Qed.

(** With a teardown that goes through, [get_top_cryptos] returns a frame:
    the records of the first [TOP_N] rows if their cells were all handed
    over, the empty frame in every other case. *)
Lemma get_top_cryptos_teardown s :
  teardown_succeeds s ->
  get_top_cryptos s = Ok [] \/
  exists trs rawRows,
    table s = Some trs /\ firstn TOP_N trs = map Ok rawRows /\
    get_top_cryptos s = Ok (keep_records rawRows).
Proof.
  destruct s as [e | [trs|e] shot quit]; simpl; [auto | |].
  - intros (-> & ->).
    destruct (rows_fetched_or_not (firstn TOP_N trs))
      as [(raw & E) | (before & e & after & E)].
    + right. exists trs, raw. split; [reflexivity|]. split; [exact E|].
      apply (get_top_cryptos_fetched trs raw (Ok tt) E).
    + left. apply (get_top_cryptos_not_fetched trs before e after E).
  - intros (-> & ->). left. reflexivity.
Qed.

End Loop.

(** X6.  When the teardown of the browser goes through, every failure of
    the scrape, and every table of which fewer than [TOP_N] of the first
    [TOP_N] rows yield a record, makes a pass of [main] print the
    incomplete-data warning and nothing else, and the loop goes on to its
    sleep.  When [driver.quit] raises, the pass ends [main] through the
    unexpected-error exit, whatever the page held. *)
Theorem incomplete_page_is_reported pd s :
  (teardown_succeeds s ->
   (forall trs rawRows,
       table s = Some trs -> firstn TOP_N trs = map Ok rawRows ->
       (List.length (filter is_record rawRows) < TOP_N)%nat) ->
   main_cycle pd s = ([IncompleteData], Sleep)) /\
  (forall page shot e,
      s = Driver page shot (Raise e) ->
      main_cycle pd s = ([UnexpectedError e], Exit)).
Proof.
  split.
  - intros T H. unfold main_cycle, cycle.
    destruct (get_top_cryptos_teardown s T) as [E | (trs & raw & Ht & Hf & E)];
      rewrite E, io_bind_lift_ok; [reflexivity|].
    assert (L : (List.length (keep_records raw) <? TOP_N)%nat = true).
    { apply Nat.ltb_lt. rewrite keep_records_length. exact (H trs raw Ht Hf). }
    rewrite L, orb_true_r. reflexivity.
  - intros page shot e ->. reflexivity.
Qed.

(** A table of twenty rows of which one is an advertisement of two cells:
    nineteen records, so the warning and the sleep.  And a browser that
    cannot be quit: the end of [main]. *)
Lemma incomplete_page_is_reported_witness :
  let td s := {| text := Ok s; coin_item_symbol := Ok s |} in
  let tr := Ok [td ""; td "1"; td "BTC"; td "$1.00"; td "0.1%"; td "2.5%";
                td "0.3%"; td "$1.2B"; td "$20M"] in
  let ad := Ok [td "Sponsored"; td ""] in
  main_cycle pandas_3 (Driver (Ok (ad :: repeat tr 19)) (Ok tt) (Ok tt)) =
    ([IncompleteData], Sleep) /\
  main_cycle pandas_3 (Driver (Ok (repeat tr 20)) (Ok tt)
                         (Raise WebDriverException)) =
    ([UnexpectedError WebDriverException], Exit).
Proof.
  intros td tr ad. split.
  - apply incomplete_page_is_reported; [split; reflexivity|].
    intros trs rawRows E F. injection E as <-.
    assert (R : rawRows =
                [td "Sponsored"; td ""]
                  :: repeat [td ""; td "1"; td "BTC"; td "$1.00"; td "0.1%";
                             td "2.5%"; td "0.3%"; td "$1.2B"; td "$20M"] 19).
    { apply (f_equal (map (fun r => match r with Ok c => c | Raise _ => [] end)))
        in F.
      rewrite map_map, map_id in F. rewrite <- F. reflexivity. }
    rewrite R. apply Nat.ltb_lt. vm_compute. reflexivity.
  - eapply (proj2 (incomplete_page_is_reported pandas_3 _)). reflexivity.
Defined.

(** X7.  Whatever the browser does, a pass of [main] reaches [save_to_csv]
    only with exactly [TOP_N] rows, and a pass that reaches it ends in the
    sleep, not in the unexpected-error exit. *)
Theorem saved_batches_have_top_n_rows pd s n :
  In (SavedToCsv n) (fst (main_cycle pd s)) ->
  n = TOP_N /\ snd (main_cycle pd s) = Sleep.
Proof.
  unfold main_cycle, cycle.
  destruct (get_top_cryptos s) as [data|e] eqn:E.
  - pose proof (get_top_cryptos_length s data E) as B.
    rewrite io_bind_lift_ok.
    destruct ((List.length data =? 0)%nat || (List.length data <? TOP_N)%nat) eqn:G.
    + simpl. intros [H | []]. discriminate H.
    + apply orb_false_iff in G. destruct G as (_ & G). apply Nat.ltb_ge in G.
      pose proof (analysis_saved pd data n) as A.
      destruct (analysis pd data) as [out [[]|e]]; cbn [fst snd] in *; intros H.
      * destruct (A H) as (-> & _). split; [lia | reflexivity].
      * apply in_app_or in H. destruct H as [H | [H | []]]; [|discriminate H].
        destruct (A H) as (_ & A'). discriminate A'.
  - rewrite io_bind_lift_raise. simpl. intros [H | []]. discriminate H.
Qed.

(** Twenty rows that differ in price, change and cap: the pass reaches the
    CSV line, with twenty rows. *)
Lemma saved_batches_have_top_n_rows_witness :
  let td s := {| text := Ok s; coin_item_symbol := Ok s |} in
  let tr n := Ok [td ""; td "1"; td "C"; td ("$" ++ n); td "0.1%"; td (n ++ "%");
                  td "0.3%"; td ("$" ++ n ++ "B"); td "$20M"]%string in
  let s := Driver
             (Ok (map tr ["1"; "2"; "3"; "4"; "5"; "6"; "7"; "8"; "9"; "10";
                          "11"; "12"; "13"; "14"; "15"; "16"; "17"; "18"; "19";
                          "20"]%string))
             (Ok tt) (Ok tt) in
  20%nat = TOP_N /\ snd (main_cycle pandas_3 s) = Sleep.
Proof.
  intros td tr s.
  apply (saved_batches_have_top_n_rows pandas_3 s 20).
  vm_compute. repeat (first [left; reflexivity | right]).
Defined.

(** X8.  Once a pass has left the loop through the unexpected-error exit,
    no later page is loaded: what [main] prints does not depend on the
    runs of the browser after it. *)
Theorem main_stops_at_exit pd before s after :
  snd (main_cycle pd s) = Exit ->
  main pd (before ++ s :: after) = main pd (before ++ [s]).
Proof.
  intros H. induction before as [|p before IH]; simpl.
  - destruct (main_cycle pd s) as [out []]; [discriminate H | reflexivity].
  - destruct (main_cycle pd p) as [out []]; [rewrite IH|]; reflexivity.
Qed.

(** Twenty rows without a readable 24h change end the loop; the page after
    them is never loaded. *)
Lemma main_stops_at_exit_witness :
  let td s := {| text := Ok s; coin_item_symbol := Ok s |} in
  let tr := Ok [td ""; td "1"; td "BTC"; td "$1.00"; td "0.1%"; td "--";
                td "0.3%"; td "$1.2B"; td "$20M"] in
  let browser trs := Driver (Ok trs) (Ok tt) (Ok tt) in
  main pandas_3 ([browser []] ++ browser (repeat tr 20) :: [browser []]) =
  main pandas_3 ([browser []] ++ [browser (repeat tr 20)]).
Proof.
  intros td tr browser. apply main_stops_at_exit. vm_compute. reflexivity.
Defined.

(** ** The first largest and the first smallest entry *)

Section Extremes.

(** [a <= b] and [b < c] give [a < c]. *)
Lemma lex_compare_le_lt_trans a b c :
  lex_compare a b <> Gt -> lex_compare b c = Lt -> lex_compare a c = Lt.
Proof.
  destruct a as [[a1 a2] a3], b as [[b1 b2] b3], c as [[c1 c2] c3].
  unfold lex_compare.
  destruct (Z.compare_spec a1 b1); try congruence;
    destruct (Z.compare_spec b1 c1); try congruence;
    destruct (Z.compare_spec a1 c1); try congruence; try lia;
    destruct (Z.compare_spec a2 b2); try congruence;
    destruct (Z.compare_spec b2 c2); try congruence;
    destruct (Z.compare_spec a2 c2); try congruence; try lia;
    destruct (Z.compare_spec a3 b3); try congruence;
    destruct (Z.compare_spec b3 c3); try congruence;
    destruct (Z.compare_spec a3 c3); try congruence; lia.
Qed.

Lemma argmax_from_first_largest l : forall pre bi bv,
  Forall number (pre ++ l) ->
  first_largest pre bi bv ->
  exists v, first_largest (pre ++ l) (argmax_from l (List.length pre) bi bv) v.
Proof.
  induction l as [|x l IH]; intros pre bi bv N (Hb & Hall); simpl.
  - exists bv. rewrite app_nil_r. split; assumption.
  - assert (Nbv : number bv).
    { rewrite Forall_forall in N. apply N. apply in_or_app. left.
      eapply nth_error_In. exact Hb. }
    assert (Nx : number x).
    { rewrite Forall_forall in N. apply N. apply in_or_app. right. left.
      reflexivity. }
    assert (Lb : (bi < List.length pre)%nat).
    { apply nth_error_Some. congruence. }
    replace (pre ++ x :: l) with ((pre ++ [x]) ++ l) in *
      by (rewrite <- app_assoc; reflexivity).
    replace (S (List.length pre)) with (List.length (pre ++ [x]))
      by (rewrite length_app; simpl; lia).
    rewrite (ltb_rank bv x Nbv Nx).
    destruct (lex_compare (rank bv) (rank x)) eqn:E.
    + apply IH; [exact N|]. split.
      * rewrite nth_error_app1 by exact Lb. exact Hb.
      * intros j y Hy.
        destruct (Nat.lt_ge_cases j (List.length pre)) as [Hj | Hj].
        -- rewrite nth_error_app1 in Hy by exact Hj. exact (Hall j y Hy).
        -- rewrite nth_error_app2 in Hy by exact Hj.
           destruct (j - List.length pre)%nat as [|k] eqn:K;
             [|destruct k; discriminate Hy].
           injection Hy as <-. split; [|lia].
           rewrite lex_compare_antisym, E. discriminate.
    + apply (IH (pre ++ [x]) (List.length pre) x); [exact N|]. split.
      * rewrite nth_error_app2 by lia. rewrite Nat.sub_diag. reflexivity.
      * intros j y Hy.
        destruct (Nat.lt_ge_cases j (List.length pre)) as [Hj | Hj].
        -- rewrite nth_error_app1 in Hy by exact Hj.
           destruct (Hall j y Hy) as (Le & _).
           assert (Lt' : lex_compare (rank y) (rank x) = Lt)
             by (eapply lex_compare_le_lt_trans; eassumption).
           split; [congruence | intros _; exact Lt'].
        -- rewrite nth_error_app2 in Hy by exact Hj.
           destruct (j - List.length pre)%nat as [|k] eqn:K;
             [|destruct k; discriminate Hy].
           injection Hy as <-. split; [|lia].
           rewrite lex_compare_refl. discriminate.
    + apply IH; [exact N|]. split.
      * rewrite nth_error_app1 by exact Lb. exact Hb.
      * intros j y Hy.
        destruct (Nat.lt_ge_cases j (List.length pre)) as [Hj | Hj].
        -- rewrite nth_error_app1 in Hy by exact Hj. exact (Hall j y Hy).
        -- rewrite nth_error_app2 in Hy by exact Hj.
           destruct (j - List.length pre)%nat as [|k] eqn:K;
             [|destruct k; discriminate Hy].
           injection Hy as <-. split; [|lia].
           rewrite lex_compare_antisym, E. discriminate.
Qed.

Lemma fillna_number v x : number v -> number (fillna v x).
Proof.
  intros H. unfold fillna. destruct (PrimFloat.is_nan x) eqn:E; [exact H|].
  apply is_nan_number. exact E.
Qed.

Lemma fillna_of_number v x : number x -> fillna v x = x.
Proof.
  intros H. apply is_nan_number in H. unfold fillna. rewrite H. reflexivity.
Qed.

Lemma map_fillna_numbers v l : Forall number l -> map (fillna v) l = l.
Proof.
  induction 1 as [|x l Hx _ IH]; simpl; [reflexivity|].
  rewrite IH, (fillna_of_number v x Hx). reflexivity.
Qed.

(** What [idxmax] answers is the position of the first largest entry, a
    NaN counting as minus infinity. *)
Lemma idxmax_first_largest pd l i :
  idxmax pd l = Ok (Some i) ->
  exists v, first_largest (map (fillna PrimFloat.neg_infinity) l) i v.
Proof.
  unfold idxmax. destruct l as [|x rest]; [discriminate|].
  destruct (forallb PrimFloat.is_nan (x :: rest)); [destruct pd; discriminate|].
  intros E. injection E as <-.
  assert (Ninf : number PrimFloat.neg_infinity) by (vm_compute; congruence).
  change (map (fillna PrimFloat.neg_infinity) (x :: rest))
    with ([fillna PrimFloat.neg_infinity x]
            ++ map (fillna PrimFloat.neg_infinity) rest).
  apply (argmax_from_first_largest _ [fillna PrimFloat.neg_infinity x] 0).
  - apply Forall_forall. intros y Hy. simpl in Hy.
    destruct Hy as [<- | Hy]; [apply fillna_number; exact Ninf|].
    apply in_map_iff in Hy. destruct Hy as (z & <- & _).
    apply fillna_number. exact Ninf.
  - split; [reflexivity|]. intros [|[|j]] y Hy; try discriminate Hy.
    injection Hy as <-. split; [|lia]. rewrite lex_compare_refl. discriminate.
Qed.

Lemma rank_opp x y :
  lex_compare (rank (- x)%float) (rank (- y)%float) =
  lex_compare (rank y) (rank x).
Proof.
  unfold rank. rewrite !FloatAxioms.opp_spec.
  assert (K : forall s,
             key (SFopp s) =
             let '(a, b, c) := key s in (- a, - b, - c)%Z).
  { intros [[]|[]| |[] m e]; simpl; try reflexivity.
    rewrite Z.opp_involutive. reflexivity. }
  rewrite !K.
  destruct (key (Prim2SF x)) as [[a1 a2] a3], (key (Prim2SF y)) as [[b1 b2] b3].
  unfold lex_compare. rewrite !Z.compare_opp. reflexivity.
Qed.

Lemma le_of_rank x v :
  number x -> number v ->
  lex_compare (rank x) (rank v) <> Gt -> (x <=? v)%float = true.
Proof.
  intros Nx Nv H. rewrite (leb_rank x v Nx Nv).
  destruct (lex_compare (rank x) (rank v)); congruence.
Qed.

Lemma lt_of_rank x v :
  number x -> number v ->
  lex_compare (rank x) (rank v) = Lt -> (x <? v)%float = true.
Proof. intros Nx Nv H. rewrite (ltb_rank x v Nx Nv), H. reflexivity. Qed.

(** On a column of numbers: the answer of [idxmax] holds an entry that no
    entry exceeds and that the entries before it stay below. *)
Lemma idxmax_numbers pd l :
  l <> [] -> Forall number l ->
  exists i v,
    idxmax pd l = Ok (Some i) /\ nth_error l i = Some v /\
    forall j x, nth_error l j = Some x ->
                (x <=? v)%float = true /\ ((j < i)%nat -> (x <? v)%float = true).
Proof.
  intros Hne N. destruct l as [|x rest]; [congruence|].
  inversion N as [|? ? Nx Nrest]; subst.
  destruct (idxmax_ok pd x rest Nx) as (i & E & _).
  destruct (idxmax_first_largest pd _ i E) as (v & Hv & Hall).
  rewrite (map_fillna_numbers _ _ N) in Hv, Hall.
  assert (Nv : number v).
  { rewrite Forall_forall in N. apply N. eapply nth_error_In. exact Hv. }
  exists i, v. repeat split; try assumption.
  - apply le_of_rank; try assumption.
    + rewrite Forall_forall in N. apply N. eapply nth_error_In. eassumption.
    + apply (Hall j x0). assumption.
  - intros Hj. apply lt_of_rank; try assumption.
    + rewrite Forall_forall in N. apply N. eapply nth_error_In. eassumption.
    + apply (Hall j x0); assumption.
Qed.

Lemma idxmin_numbers pd l :
  l <> [] -> Forall number l ->
  exists i v,
    idxmin pd l = Ok (Some i) /\ nth_error l i = Some v /\
    forall j x, nth_error l j = Some x ->
                (v <=? x)%float = true /\ ((j < i)%nat -> (v <? x)%float = true).
Proof.
  intros Hne N. unfold idxmin.
  assert (N' : Forall number (map PrimFloat.opp l)).
  { apply Forall_forall. intros y Hy. apply in_map_iff in Hy.
    destruct Hy as (z & <- & Hz). apply opp_number.
    rewrite Forall_forall in N. apply N. exact Hz. }
  assert (Hne' : map PrimFloat.opp l <> []) by (destruct l; [congruence | discriminate]).
  destruct l as [|x0 rest0]; [congruence|].
  inversion N' as [|? ? Nx Nrest]; subst.
  destruct (idxmax_ok pd (- x0)%float (map PrimFloat.opp rest0) Nx) as (i & E & _).
  change (PrimFloat.opp x0 :: map PrimFloat.opp rest0)
    with (map PrimFloat.opp (x0 :: rest0)) in E.
  destruct (idxmax_first_largest pd _ i E) as (w & Hw & Hall).
  rewrite (map_fillna_numbers _ _ N') in Hw, Hall.
  rewrite nth_error_map in Hw.
  destruct (nth_error (x0 :: rest0) i) as [v|] eqn:Ev; [|discriminate Hw].
  injection Hw as <-.
  assert (Nv : number v).
  { rewrite Forall_forall in N. apply N. eapply nth_error_In. exact Ev. }
  exists i, v. split; [exact E|]. split; [exact Ev|].
  intros j x Hx.
  assert (Nxx : number x).
  { rewrite Forall_forall in N. apply N. eapply nth_error_In. exact Hx. }
  assert (Hx' : nth_error (map PrimFloat.opp (x0 :: rest0)) j = Some (- x)%float).
  { rewrite nth_error_map, Hx. reflexivity. }
  destruct (Hall j _ Hx') as (Le & Lt'). rewrite rank_opp in Le, Lt'.
  split.
  - apply le_of_rank; assumption.
  - intros Hj. apply lt_of_rank; auto.
Qed.

End Extremes.

(** ** The reports on a frame of numbers *)

Section Reports.

Lemma loc_nth df i c : nth_error df i = Some c -> loc df (Some i) = Ok c.
Proof. intros H. unfold loc. rewrite H. reflexivity. Qed.

Lemma nth_error_map_inv {A B : Type} (f : A -> B) l i v :
  nth_error (map f l) i = Some v -> exists a, nth_error l i = Some a /\ f a = v.
Proof.
  rewrite nth_error_map. destruct (nth_error l i) as [a|]; [|discriminate].
  intros E. injection E as <-. eauto.
Qed.

Lemma column_numbers (f : coin -> float) df :
  Forall (fun c => number (f c)) df -> Forall number (map f df).
Proof. intros H. apply Forall_map. exact H. Qed.

Lemma column_not_empty (f : coin -> float) df : df <> [] -> map f df <> [].
Proof. destruct df; [congruence | discriminate]. Qed.

(** The holder of the largest, and of the smallest, entry of a column. *)
Lemma name_at_idxmax pd (f : coin -> float) df :
  df <> [] -> Forall (fun c => number (f c)) df ->
  exists name, name_at df (idxmax pd (map f df)) = lift (Ok name).
Proof.
  intros Hne N.
  destruct (idxmax_numbers pd (map f df) (column_not_empty f df Hne)
              (column_numbers f df N)) as (i & v & E & Hv & _).
  destruct (nth_error_map_inv f df i v Hv) as (c & Hc & _).
  exists (coin_name c). unfold name_at.
  rewrite E, io_bind_lift_ok, (loc_nth df i c Hc), io_bind_lift_ok. reflexivity.
Qed.

Lemma name_at_idxmin pd (f : coin -> float) df :
  df <> [] -> Forall (fun c => number (f c)) df ->
  exists name, name_at df (idxmin pd (map f df)) = lift (Ok name).
Proof.
  intros Hne N.
  destruct (idxmin_numbers pd (map f df) (column_not_empty f df Hne)
              (column_numbers f df N)) as (i & v & E & Hv & _).
  destruct (nth_error_map_inv f df i v Hv) as (c & Hc & _).
  exists (coin_name c). unfold name_at.
  rewrite E, io_bind_lift_ok, (loc_nth df i c Hc), io_bind_lift_ok. reflexivity.
Qed.

Lemma display_highly_advanced_analysis_ok pd df :
  df <> [] ->
  Forall (fun c => number (price c) /\ number (change c) /\ number (cap c)) df ->
  snd (display_highly_advanced_analysis pd df) = Ok tt /\
  List.length (fst (display_highly_advanced_analysis pd df)) = 4%nat.
Proof.
  intros Hne N.
  assert (Np : Forall (fun c => number (price c)) df)
    by (eapply Forall_impl; [|exact N]; simpl; tauto).
  assert (Nc : Forall (fun c => number (change c)) df)
    by (eapply Forall_impl; [|exact N]; simpl; tauto).
  assert (Nm : Forall (fun c => number (cap c)) df)
    by (eapply Forall_impl; [|exact N]; simpl; tauto).
  destruct (name_at_idxmax pd price df Hne Np) as (n1 & E1).
  destruct (name_at_idxmax pd change df Hne Nc) as (n2 & E2).
  destruct (name_at_idxmax pd cap df Hne Nm) as (n3 & E3).
  destruct (name_at_idxmin pd price df Hne Np) as (n4 & E4).
  destruct (name_at_idxmin pd change df Hne Nc) as (n5 & E5).
  destruct (name_at_idxmin pd cap df Hne Nm) as (n6 & E6).
  unfold display_highly_advanced_analysis.
  rewrite !io_bind_print, E1, io_bind_lift_ok, E2, io_bind_lift_ok,
    E3, io_bind_lift_ok, E4, io_bind_lift_ok, E5, io_bind_lift_ok,
    E6, io_bind_lift_ok.
  split; reflexivity.
Qed.

End Reports.

(** X9.  On a frame that is not empty and whose prices are numbers,
    [display_advanced_analysis] prints the sentiment and then two coins of
    the frame: one whose price no coin exceeds, the first such in the
    frame, and one below whose price no coin lies, again the first such.
    It raises nothing. *)
Theorem price_extremes_are_reported pd df :
  df <> [] -> Forall (fun c => number (price c)) df ->
  exists i j hi lo,
    nth_error df i = Some hi /\ nth_error df j = Some lo /\
    display_advanced_analysis pd df =
      ([ Sentiment (if (0 <? mean (map change df))%float then Bullish else Bearish)
                   (mean (map change df));
         HighestPrice hi; LowestPrice lo ], Ok tt) /\
    forall k c, nth_error df k = Some c ->
      (price c <=? price hi)%float = true /\
      ((k < i)%nat -> (price c <? price hi)%float = true) /\
      (price lo <=? price c)%float = true /\
      ((k < j)%nat -> (price lo <? price c)%float = true).
Proof.
  intros Hne N.
  destruct (idxmax_numbers pd (map price df) (column_not_empty price df Hne)
              (column_numbers price df N)) as (i & v & Ei & Hv & Hmax).
  destruct (idxmin_numbers pd (map price df) (column_not_empty price df Hne)
              (column_numbers price df N)) as (j & w & Ej & Hw & Hmin).
  destruct (nth_error_map_inv price df i v Hv) as (hi & Hhi & <-).
  destruct (nth_error_map_inv price df j w Hw) as (lo & Hlo & <-).
  exists i, j, hi, lo. split; [exact Hhi|]. split; [exact Hlo|]. split.
  - unfold display_advanced_analysis.
    rewrite io_bind_print, Ei, io_bind_lift_ok, (loc_nth df i hi Hhi),
      io_bind_lift_ok, Ej, io_bind_lift_ok, (loc_nth df j lo Hlo),
      io_bind_lift_ok.
    reflexivity.
  - intros k c Hc.
    assert (Hk : nth_error (map price df) k = Some (price c))
      by (rewrite nth_error_map, Hc; reflexivity).
    destruct (Hmax k _ Hk) as (A & B). destruct (Hmin k _ Hk) as (C & D).
    auto.
Qed.

(** Three coins at 2, 7 and 7 dollars: the second is reported as the
    highest, the first as the lowest. *)
Lemma price_extremes_are_reported_witness :
  let df := [ {| coin_name := "A"; price := 2%float; change := 1%float;
                 cap := 5%float |};
              {| coin_name := "B"; price := 7%float; change := 2%float;
                 cap := 6%float |};
              {| coin_name := "C"; price := 7%float; change := 3%float;
                 cap := 7%float |} ] in
  exists i j hi lo,
    nth_error df i = Some hi /\ nth_error df j = Some lo /\
    display_advanced_analysis pandas_3 df =
      ([ Sentiment (if (0 <? mean (map change df))%float then Bullish else Bearish)
                   (mean (map change df));
         HighestPrice hi; LowestPrice lo ], Ok tt) /\
    forall k c, nth_error df k = Some c ->
      (price c <=? price hi)%float = true /\
      ((k < i)%nat -> (price c <? price hi)%float = true) /\
      (price lo <=? price c)%float = true /\
      ((k < j)%nat -> (price lo <? price c)%float = true).
Proof.
  intros df. apply (price_extremes_are_reported pandas_3 df); [discriminate|].
  repeat constructor; vm_compute; congruence.
Defined.

(** X10.  As soon as one scraped record qualifies, the two analysis reports
    go through without an exception, and the second prints its four
    lines. *)
Theorem reports_complete_on_qualifying_records pd data :
  dropna data <> [] ->
  snd (display_advanced_analysis pd (dropna data)) = Ok tt /\
  snd (display_highly_advanced_analysis pd (dropna data)) = Ok tt /\
  List.length (fst (display_highly_advanced_analysis pd (dropna data))) = 4%nat.
Proof.
  intros Hne. pose proof (dropna_numbers data) as N.
  split.
  - destruct (dropna data) as [|c df]; [congruence|].
    apply display_advanced_analysis_ok. inversion N; subst. tauto.
  - apply display_highly_advanced_analysis_ok; assumption.
Qed.

(** One record with a price, a change and a cap. *)
Lemma reports_complete_on_qualifying_records_witness :
  let data := [ {| Name := "A"; PriceUSD := Some 2%float;
                   Change24h_Percent := Some 1%float;
                   MarketCapUSD := Some 5%float |} ] in
  snd (display_advanced_analysis pandas_3 (dropna data)) = Ok tt /\
  snd (display_highly_advanced_analysis pandas_3 (dropna data)) = Ok tt /\
  List.length (fst (display_highly_advanced_analysis pandas_3 (dropna data))) =
  4%nat.
Proof.
  intros data. apply reports_complete_on_qualifying_records. discriminate.
Defined.

(** X11.  When [display_recommendation_assistant] goes through, what it
    recommends is a coin of the frame: it prints that coin's name and 24h
    change and then the projection for that coin's price, nothing else;
    no coin has a score above the pick's, and the coins before it have
    lower scores (a NaN score of the pick counting as minus infinity). *)
Theorem recommendation_is_an_analysed_coin pd df :
  snd (display_recommendation_assistant pd df) = Ok tt ->
  exists i c s,
    nth_error df i = Some c /\ nth_error (score df) i = Some s /\
    fst (display_recommendation_assistant pd df) =
      [ Recommendation (coin_name c) (change c);
        Projections (projections (price c)) ] /\
    forall j sj,
      nth_error (score df) j = Some sj -> number sj ->
      (sj <=? fillna PrimFloat.neg_infinity s)%float = true /\
      ((j < i)%nat -> (sj <? fillna PrimFloat.neg_infinity s)%float = true).
Proof.
  unfold display_recommendation_assistant.
  destruct (idxmax pd (score df)) as [[i|]|e] eqn:E;
    [| intros H; discriminate H | intros H; discriminate H].
  rewrite io_bind_lift_ok.
  destruct (loc df (Some i)) as [c|e] eqn:L; [|intros H; discriminate H].
  rewrite io_bind_lift_ok. intros _.
  assert (Hc : nth_error df i = Some c).
  { unfold loc in L. destruct (nth_error df i); [congruence | discriminate]. }
  destruct (idxmax_first_largest pd _ i E) as (v & Hv & Hall).
  destruct (nth_error_map_inv _ _ i v Hv) as (s & Hs & <-).
  assert (Ninf : number PrimFloat.neg_infinity) by (vm_compute; congruence).
  exists i, c, s. repeat split; try assumption.
  - apply le_of_rank; [assumption | apply fillna_number; exact Ninf|].
    apply (Hall j). rewrite nth_error_map, H.
    simpl. rewrite (fillna_of_number _ sj H0). reflexivity.
  - intros Hj. apply lt_of_rank; [assumption | apply fillna_number; exact Ninf|].
    apply (Hall j); [|exact Hj]. rewrite nth_error_map, H.
    simpl. rewrite (fillna_of_number _ sj H0). reflexivity.
Qed.

(** Three coins of different caps and changes: the third is picked. *)
Lemma recommendation_is_an_analysed_coin_witness :
  let df := [ {| coin_name := "A"; price := 2%float; change := 1%float;
                 cap := 5%float |};
              {| coin_name := "B"; price := 7%float; change := 2%float;
                 cap := 6%float |};
              {| coin_name := "C"; price := 7%float; change := 3%float;
                 cap := 7%float |} ] in
  exists i c s,
    nth_error df i = Some c /\ nth_error (score df) i = Some s /\
    fst (display_recommendation_assistant pandas_3 df) =
      [ Recommendation (coin_name c) (change c);
        Projections (projections (price c)) ] /\
    forall j sj,
      nth_error (score df) j = Some sj -> number sj ->
      (sj <=? fillna PrimFloat.neg_infinity s)%float = true /\
      ((j < i)%nat -> (sj <? fillna PrimFloat.neg_infinity s)%float = true).
Proof.
  intros df. apply (recommendation_is_an_analysed_coin pandas_3 df).
  vm_compute. reflexivity.
Defined.

(** ** Scores at the ends of the range *)

Section Ends.

(** A finite value that is not zero, divided by itself, is one. *)
Lemma div_self d : finite_nonzero d -> (d / d)%float = 1%float.
Proof.
  intros (s & m & e & E). apply Prim2SF_inj.
  rewrite FloatAxioms.div_spec, E. unfold SF64div, SFdiv, SFdiv_core_binary.
  replace (Zdigits2 (Z.pos m) + e - (Zdigits2 (Z.pos m) + e))%Z with 0%Z by lia.
  rewrite Z.sub_diag.
  change (Z.min (fexp prec emax 0) 0) with (-53)%Z.
  change (0 - -53)%Z with 53%Z. cbv iota.
  rewrite Z.shiftl_mul_pow2 by lia.
  assert (Q : Z.div_eucl (Z.pos m * 2 ^ 53) (Z.pos m) = ((2 ^ 53)%Z, 0%Z)).
  { pose proof (Z.div_mul (2 ^ 53) (Z.pos m) ltac:(lia)) as Hq.
    pose proof (Z.mod_mul (2 ^ 53) (Z.pos m) ltac:(lia)) as Hr.
    rewrite Z.mul_comm in Hq, Hr. unfold Z.div in Hq. unfold Z.modulo in Hr.
    destruct (Z.div_eucl (Z.pos m * 2 ^ 53) (Z.pos m)) as [q r].
    simpl in Hq, Hr. subst. reflexivity. }
  rewrite Q.
  assert (L : new_location (Z.pos m) 0 = loc_Exact).
  { unfold new_location, new_location_even, new_location_odd.
    destruct (Z.even (Z.pos m)); reflexivity. }
  rewrite L. destruct s; vm_compute; reflexivity.
Qed.

(** What a finite difference is taken from is finite, or a zero. *)
Lemma sub_finite_r x y :
  finite_nonzero (x - y)%float ->
  (exists s, Prim2SF y = S754_zero s) \/ finite_nonzero y.
Proof.
  intros (s & m & e & E). rewrite FloatAxioms.sub_spec in E.
  unfold SF64sub, SFsub, finite_nonzero in *.
  destruct (Prim2SF y) as [sy|sy| |sy my ey]; eauto;
    destruct (Prim2SF x) as [sx|sx| |sx mx ex]; try discriminate E;
    destruct sx, sy; discriminate E.
Qed.

Lemma sub_self_zero y :
  (exists s, Prim2SF y = S754_zero s) \/ finite_nonzero y ->
  Prim2SF (y - y)%float = S754_zero false.
Proof.
  rewrite FloatAxioms.sub_spec. unfold SF64sub, SFsub.
  intros [(s & ->) | (s & m & e & ->)].
  - destruct s; reflexivity.
  - unfold shl_align. rewrite Z.min_id, !Z.sub_diag. reflexivity.
Qed.

(** Zero over a finite value that is not zero is a zero. *)
Lemma zero_div z d :
  Prim2SF z = S754_zero false -> finite_nonzero d ->
  exists s, Prim2SF (z / d)%float = S754_zero s.
Proof.
  intros Ez (s & m & e & Ed). rewrite FloatAxioms.div_spec, Ez, Ed.
  simpl. eauto.
Qed.

Lemma is_zero_eqb z : (exists s, Prim2SF z = S754_zero s) -> (z =? 0)%float = true.
Proof.
  intros (s & E). rewrite FloatAxioms.eqb_spec, E.
  change (Prim2SF 0) with (S754_zero false). reflexivity.
Qed.

(** Half a zero plus half a zero is a zero. *)
Lemma half_sum_zero z1 z2 :
  (exists s, Prim2SF z1 = S754_zero s) -> (exists s, Prim2SF z2 = S754_zero s) ->
  exists s, Prim2SF (0.5 * z1 + 0.5 * z2)%float = S754_zero s.
Proof.
  intros (s1 & E1) (s2 & E2).
  rewrite FloatAxioms.add_spec, !FloatAxioms.mul_spec, E1, E2.
  change (Prim2SF 0.5) with (S754_finite false 4503599627370496 (-53)).
  simpl. destruct s1, s2; simpl; eauto.
Qed.

Lemma combine_map {A B C : Type} (f : A -> B) (g : A -> C) l :
  combine (map f l) (map g l) = map (fun a => (f a, g a)) l.
Proof. induction l as [|a l IH]; simpl; [|rewrite IH]; reflexivity. Qed.

(** The score of a coin, written out. *)
Lemma score_nth df k c :
  nth_error df k = Some c ->
  nth_error (score df) k =
  Some (0.5 * ((cap c - series_min (map cap df)) /
               (series_max (map cap df) - series_min (map cap df)))
        + 0.5 * ((change c - series_min (map change df)) /
                 (series_max (map change df) - series_min (map change df))))%float.
Proof.
  intros H. unfold score, mc_norm, ch_norm, min_max_norm.
  rewrite !map_map, combine_map, map_map, nth_error_map, H. reflexivity.
Qed.

End Ends.

(** X12.  When the spreads of the market caps and of the 24h changes are
    finite and not zero, a coin that holds the largest cap and the largest
    change scores exactly 1, and a coin that holds the smallest cap and the
    smallest change scores zero. *)
Theorem scores_at_the_ends df k c :
  nth_error df k = Some c ->
  spread_ok (map cap df) -> spread_ok (map change df) ->
  (cap c = series_max (map cap df) ->
   change c = series_max (map change df) ->
   nth_error (score df) k = Some 1%float) /\
  (cap c = series_min (map cap df) ->
   change c = series_min (map change df) ->
   exists z, nth_error (score df) k = Some z /\ (z =? 0)%float = true).
Proof.
  intros Hc Sm Sc. rewrite (score_nth df k c Hc). split.
  - intros -> ->. rewrite (div_self _ Sm), (div_self _ Sc). reflexivity.
  - intros -> ->. eexists. split; [reflexivity|].
    apply is_zero_eqb. apply half_sum_zero.
    + apply zero_div; [|exact Sm]. apply sub_self_zero.
      exact (sub_finite_r _ _ Sm).
    + apply zero_div; [|exact Sc]. apply sub_self_zero.
      exact (sub_finite_r _ _ Sc).
Qed.

(** Of three coins the third has the largest cap and the largest change:
    its score is 1. *)
Lemma scores_at_the_ends_witness :
  let df := [ {| coin_name := "A"; price := 2%float; change := 1%float;
                 cap := 5%float |};
              {| coin_name := "B"; price := 7%float; change := 2%float;
                 cap := 6%float |};
              {| coin_name := "C"; price := 7%float; change := 3%float;
                 cap := 7%float |} ] in
  nth_error (score df) 2 = Some 1%float.
Proof.
  intros df.
  assert (S1 : spread_ok (map cap df)) by (do 3 eexists; vm_compute; reflexivity).
  assert (S2 : spread_ok (map change df)) by (do 3 eexists; vm_compute; reflexivity).
  destruct (scores_at_the_ends df 2
              {| coin_name := "C"; price := 7%float; change := 3%float;
                 cap := 7%float |} eq_refl S1 S2) as (H & _).
  apply H; reflexivity.
Defined.

(** ** Volatility *)

Section Spread.

Lemma binary_round_aux_positive m e l :
  SFltb (binary_round_aux prec emax false m e l) (S754_zero false) = false.
Proof.
  unfold binary_round_aux.
  destruct (shr_fexp prec emax m e l) as [mrs' e'].
  destruct (shr_fexp prec emax _ e' loc_Exact) as [mrs'' e''].
  destruct (shr_m mrs''); [reflexivity | | reflexivity].
  destruct (e'' <=? emax - prec)%Z; reflexivity.
Qed.

(** A square root is never below zero. *)
Lemma sqrt_not_negative y : (PrimFloat.sqrt y <? 0)%float = false.
Proof.
  rewrite FloatAxioms.ltb_spec, FloatAxioms.sqrt_spec.
  change (Prim2SF 0) with (S754_zero false).
  unfold SF64sqrt, SFsqrt.
  destruct (Prim2SF y) as [s|s| |s m e]; try reflexivity;
    destruct s; try reflexivity.
  destruct (SFsqrt_core_binary prec emax (Z.pos m) e) as [[mz ez] lz].
  apply binary_round_aux_positive.
Qed.

(** Nothing divided by NaN is a number. *)
Lemma div_nan_r x : (x / PrimFloat.nan)%float = PrimFloat.nan.
Proof.
  apply nan_is_nan. rewrite FloatAxioms.div_spec.
  change (Prim2SF PrimFloat.nan) with S754_nan.
  unfold SF64div, SFdiv. destruct (Prim2SF x); reflexivity.
Qed.

End Spread.

(** X13.  The first line of [display_highly_advanced_analysis] is the
    volatility, the sample standard deviation of the 24h changes as pandas
    takes it; it is never negative, and it is NaN when fewer than two
    changes are numbers.  Eight changes of 0.1 have the deviation 0, the
    changes 2, 4, 4, 4, 5, 5, 7, 9 have 2.138089935299395 (the divisor is
    their number less one), and an infinite change makes the deviation
    NaN. *)
Theorem volatility_is_not_negative pd df :
  exists rest,
    fst (display_highly_advanced_analysis pd df) =
      Volatility (std (map change df)) :: rest /\
    (std (map change df) <? 0)%float = false /\
    ((List.length (notnan (map change df)) <= 1)%nat ->
     std (map change df) = PrimFloat.nan) /\
    std (repeat 0.1%float 8) = 0%float /\
    std [2; 4; 4; 4; 5; 5; 7; 9]%float = 2.138089935299395%float /\
    std [PrimFloat.infinity; 1; 2]%float = PrimFloat.nan.
Proof.
  eexists. split; [|split; [|split]].
  - unfold display_highly_advanced_analysis. rewrite io_bind_print.
    cbn [fst]. reflexivity.
  - unfold std. apply sqrt_not_negative.
  - intros H. unfold std. apply Nat.leb_le in H. rewrite H.
    rewrite div_nan_r. reflexivity.
  - repeat split; reflexivity.
Qed.

(** ** [save_to_csv] *)

Section Saving.

Let T : string := "Timestamp".

Lemma has_label_setitem df name v :
  has_label name (columns (setitem df name v)) = true.
Proof.
  unfold setitem. cbn [columns].
  destruct (has_label name (columns df)) eqn:H.
  - unfold has_label in *. rewrite existsb_exists in *.
    destruct H as (c & Hc & E).
    exists (name, repeat v (nrows df)). split; [|apply String.eqb_refl].
    apply in_map_iff. exists c. rewrite E. split; [reflexivity | exact Hc].
  - unfold has_label. rewrite existsb_app. simpl.
    rewrite String.eqb_refl, orb_true_r. reflexivity.
Qed.

Lemma has_label_filter name cols :
  has_label name cols = true ->
  filter (fun c => String.eqb (fst c) name) cols <> [].
Proof.
  unfold has_label. rewrite existsb_exists. intros (c & Hc & E) F.
  assert (I : In c (filter (fun c => String.eqb (fst c) name) cols))
    by (apply filter_In; auto).
  rewrite F in I. destruct I.
Qed.

Lemma label_filter name (cols : list (string * list value)) :
  In name (map fst cols) ->
  filter (fun c => String.eqb (fst c) name) cols <> [].
Proof.
  intros H. apply has_label_filter. unfold has_label. apply existsb_exists.
  apply in_map_iff in H. destruct H as (c & <- & Hc).
  exists c. split; [exact Hc | apply String.eqb_refl].
Qed.

(** [df[cols]] finds every label that the frame has. *)
Lemma getitem_columns_ok cols df :
  (forall name, In name cols -> In name (labels df)) ->
  getitem_columns cols df =
  Ok (flat_map (fun name => filter (fun c => String.eqb (fst c) name) (columns df))
               cols).
Proof.
  induction cols as [|name cols IH]; intros H; simpl; [reflexivity|].
  pose proof (label_filter name (columns df) (H name (or_introl eq_refl))) as F.
  destruct (filter (fun c => String.eqb (fst c) name) (columns df)) as [|c found];
    [congruence|].
  rewrite IH by (intros n Hn; apply H; right; exact Hn). reflexivity.
Qed.

Lemma labels_setitem_has df name v :
  In name (labels (setitem df name v)).
Proof.
  pose proof (has_label_setitem df name v) as H. unfold has_label in H.
  apply existsb_exists in H. destruct H as (c & Hc & E).
  apply String.eqb_eq in E. subst name. unfold labels. apply in_map. exact Hc.
Qed.

(** The selection of [save_to_csv] never fails. *)
Lemma save_to_csv_selected df now :
  let df1 := setitem df T (VStr now) in
  let cols := T :: filter (fun col => negb (String.eqb col T)) (labels df1) in
  getitem_columns cols df1 =
  Ok (flat_map (fun name => filter (fun c => String.eqb (fst c) name) (columns df1))
               cols).
Proof.
  intros df1 cols. apply getitem_columns_ok. intros name [<- | H].
  - apply labels_setitem_has.
  - apply filter_In in H. tauto.
Qed.

Lemma rows_of_length df : List.length (rows_of df) = nrows df.
Proof. unfold rows_of. rewrite length_map, length_seq. reflexivity. Qed.

Lemma filter_none {A : Type} (p : A -> bool) l :
  (forall x, In x l -> p x = false) -> filter p l = [].
Proof.
  induction l as [|a l IH]; intros H; simpl; [reflexivity|].
  rewrite (H a (or_introl eq_refl)). apply IH. intros x Hx. apply H. right.
  exact Hx.
Qed.

(** With labels that are all different, the columns of one label are the
    one column that has it. *)
Lemma filter_label_nodup (cols : list (string * list value)) c :
  NoDup (map fst cols) -> In c cols ->
  filter (fun d => String.eqb (fst d) (fst c)) cols = [c].
Proof.
  induction cols as [|d cols IH]; intros N H; [destruct H|].
  inversion N as [|? ? Nd Nrest]; subst. simpl.
  destruct H as [-> | H].
  - rewrite String.eqb_refl. f_equal.
    apply filter_none. intros e He. apply String.eqb_neq. intros Eq.
    apply Nd. rewrite <- Eq. apply in_map. exact He.
  - destruct (String.eqb (fst d) (fst c)) eqn:E.
    + exfalso. apply String.eqb_eq in E. apply Nd. rewrite E.
      apply in_map. exact H.
    + apply IH; assumption.
Qed.

Lemma flat_map_labels_nodup (cols all : list (string * list value)) :
  NoDup (map fst all) -> incl cols all ->
  flat_map (fun name => filter (fun c => String.eqb (fst c) name) all)
           (map fst cols) = cols.
Proof.
  intros N. induction cols as [|c cols IH]; intros I; simpl; [reflexivity|].
  rewrite (filter_label_nodup all c N) by (apply I; left; reflexivity).
  rewrite IH by (intros x Hx; apply I; right; exact Hx). reflexivity.
Qed.

Lemma map_fst_filter (p : string -> bool) (cols : list (string * list value)) :
  filter p (map fst cols) = map fst (filter (fun c => p (fst c)) cols).
Proof.
  induction cols as [|c cols IH]; simpl; [reflexivity|].
  destruct (p (fst c)); simpl; rewrite IH; reflexivity.
Qed.

End Saving.

Section Written.

Lemma setitem_others df name v :
  filter (fun c => negb (String.eqb (fst c) name)) (columns (setitem df name v)) =
  filter (fun c => negb (String.eqb (fst c) name)) (columns df).
Proof.
  unfold setitem. cbn [columns]. destruct (has_label name (columns df)).
  - induction (columns df) as [|c cols IH]; simpl; [reflexivity|].
    destruct (String.eqb (fst c) name) eqn:E; simpl.
    + rewrite String.eqb_refl. simpl. exact IH.
    + rewrite E. simpl. rewrite IH. reflexivity.
  - rewrite filter_app. simpl. rewrite String.eqb_refl. simpl.
    apply app_nil_r.
Qed.

Lemma setitem_nodup df name v :
  NoDup (labels df) ->
  NoDup (labels (setitem df name v)) /\
  In (name, repeat v (nrows df)) (columns (setitem df name v)).
Proof.
  intros N. unfold labels, setitem in *. cbn [columns nrows].
  destruct (has_label name (columns df)) eqn:H.
  - split.
    + rewrite map_map.
      replace (map (fun x => fst (if String.eqb (fst x) name
                                   then (name, repeat v (nrows df)) else x))
                   (columns df)) with (map fst (columns df)); [exact N|].
      apply map_ext_in. intros c _.
      destruct (String.eqb (fst c) name) eqn:E; [|reflexivity].
      apply String.eqb_eq in E. exact E.
    + unfold has_label in H. apply existsb_exists in H.
      destruct H as (c & Hc & E). apply in_map_iff. exists c.
      rewrite E. split; [reflexivity | exact Hc].
  - split.
    + rewrite map_app. simpl. apply NoDup_app; [exact N | repeat constructor; simpl; tauto |].
      intros x Hx [<- | []]. apply in_map_iff in Hx.
      destruct Hx as (c & E & Hc).
      assert (X : has_label (fst c) (columns df) = true).
      { unfold has_label. apply existsb_exists. exists c.
        split; [exact Hc | apply String.eqb_refl]. }
      rewrite E in X. congruence.
    + apply in_or_app. right. left. reflexivity.
Qed.

(** What [save_to_csv] writes, for labels that are all different. *)
Lemma save_to_csv_stamped df now file :
  NoDup (labels df) ->
  save_to_csv df now file =
  Ok (to_csv (stamped df now)
             (match file with None => true | Some _ => false end)
             (match file with None => [] | Some old => old end)).
Proof.
  intros N. unfold save_to_csv.
  set (df1 := setitem df "Timestamp" (VStr now)).
  destruct (setitem_nodup df "Timestamp" (VStr now) N) as (N1 & I1).
  fold df1 in N1, I1.
  set (tcol := ("Timestamp"%string, repeat (VStr now) (nrows df))) in *.
  set (others := filter (fun c => negb (String.eqb (fst c) "Timestamp"))
                        (columns df1)).
  assert (C : "Timestamp"%string
                :: filter (fun col => negb (String.eqb col "Timestamp")) (labels df1)
              = map fst (tcol :: others)).
  { subst others. unfold labels. rewrite map_fst_filter. reflexivity. }
  rewrite C.
  rewrite getitem_columns_ok.
  - rewrite flat_map_labels_nodup.
    + cbn [bind]. subst others df1. rewrite setitem_others. reflexivity.
    + exact N1.
    + intros c [<- | Hc]; [exact I1|]. subst others.
      apply filter_In in Hc. tauto.
  - intros name Hn. apply in_map_iff in Hn. destruct Hn as (c & <- & Hc).
    unfold labels. apply in_map. destruct Hc as [<- | Hc]; [exact I1|].
    subst others. apply filter_In in Hc. tauto.
Qed.

(** What [save_to_csv] writes in any case: the header if the file is new,
    and a line per index entry. *)
Lemma save_to_csv_shape df now file :
  exists names rows,
    List.length rows = nrows df /\
    save_to_csv df now file =
    Ok ((match file with None => [HeaderLine names] | Some old => old end)
          ++ map DataLine rows).
Proof.
  unfold save_to_csv.
  pose proof (save_to_csv_selected df now) as S. cbv zeta in S. rewrite S.
  cbn [bind]. unfold to_csv.
  match goal with
  | |- context [rows_of ?d] => exists (labels d), (rows_of d)
  end.
  split; [rewrite rows_of_length; reflexivity|].
  destruct file; reflexivity.
Qed.

Lemma save_all_existing batches : forall old,
  exists rows,
    List.length rows = list_sum (map (fun b => nrows (fst b)) batches) /\
    save_all batches (Some old) = Ok (Some (old ++ map DataLine rows)).
Proof.
  induction batches as [|[df now] batches IH]; intros old; simpl.
  - exists []. rewrite app_nil_r. split; reflexivity.
  - destruct (save_to_csv_shape df now (Some old)) as (names & rows & L & E).
    rewrite E. cbn [bind].
    destruct (IH (old ++ map DataLine rows)) as (more & L' & E').
    exists (rows ++ more). rewrite length_app, L, L', E', map_app, app_assoc.
    split; reflexivity.
Qed.

Lemma nth_repeat_in {A : Type} (v d : A) n i :
  (i < n)%nat -> nth i (repeat v n) d = v.
Proof.
  revert i. induction n as [|n IH]; intros i H; [lia|].
  destruct i as [|i]; simpl; [reflexivity|]. apply IH. lia.
Qed.

Lemma map_seq_nth {A X : Type} (data : list A) (h : A -> X) : forall (f : nat -> X),
  (forall i r, nth_error data i = Some r -> f i = h r) ->
  map f (seq 0 (List.length data)) = map h data.
Proof.
  induction data as [|r data IH]; intros f H; simpl; [reflexivity|].
  rewrite (H 0%nat r eq_refl). f_equal.
  rewrite <- seq_shift, map_map. apply IH.
  intros i r' Hi. apply (H (S i) r'). exact Hi.
Qed.

End Written.

(** X14.  [save_to_csv] raises nothing in the selection of its columns,
    and over any number of calls on a file that did not exist it writes the
    header once, as the first line, followed by one line per row of each
    frame in turn. *)
Theorem csv_has_one_header batches :
  batches <> [] ->
  exists names rows,
    List.length rows = list_sum (map (fun b => nrows (fst b)) batches) /\
    save_all batches None = Ok (Some (HeaderLine names :: map DataLine rows)).
Proof.
  destruct batches as [|[df now] batches]; [congruence|]. intros _. simpl.
  destruct (save_to_csv_shape df now None) as (names & rows & L & E).
  rewrite E. cbn [bind].
  destruct (save_all_existing batches ([HeaderLine names] ++ map DataLine rows))
    as (more & L' & E').
  exists names, (rows ++ more).
  rewrite length_app, L, L', E', map_app, <- app_assoc. split; reflexivity.
Qed.

(** Two frames of two and three rows without columns: a header and five
    lines. *)
Lemma csv_has_one_header_witness :
  exists names rows,
    List.length rows = 5%nat /\
    save_all [({| nrows := 2; columns := [] |}, "t1"%string);
              ({| nrows := 3; columns := [] |}, "t2"%string)] None =
    Ok (Some (HeaderLine names :: map DataLine rows)).
Proof.
  apply (csv_has_one_header
           [({| nrows := 2; columns := [] |}, "t1"%string);
            ({| nrows := 3; columns := [] |}, "t2"%string)]).
  discriminate.
Defined.

(** X15.  For a frame whose labels are all different, [save_to_csv] writes
    the time stamp as the first column and then the other columns as they
    were, in their order; a "Timestamp" column the frame already had is
    replaced, not kept beside the new one.  The header goes in only when
    the file did not exist, and the lines are put after what the file
    held. *)
Theorem save_to_csv_puts_timestamp_first df now file :
  NoDup (labels df) ->
  save_to_csv df now file =
  Ok ((match file with None => [] | Some old => old end)
        ++ (match file with
            | None =>
                [HeaderLine
                   ("Timestamp"%string
                      :: filter (fun l => negb (String.eqb l "Timestamp")) (labels df))]
            | Some _ => []
            end)
        ++ map DataLine (rows_of (stamped df now))).
Proof.
  intros N. rewrite (save_to_csv_stamped df now file N). unfold to_csv.
  destruct file; [reflexivity|].
  unfold labels, stamped. cbn [columns map fst]. rewrite map_fst_filter.
  reflexivity.
Qed.

(** A frame that has its time stamp in the second of three columns. *)
Lemma save_to_csv_puts_timestamp_first_witness :
  save_to_csv
    {| nrows := 1;
       columns := [("a"%string, [VStr "x"]); ("Timestamp"%string, [VStr "old"]);
                   ("b"%string, [VStr "y"])] |}
    "new" None =
  Ok [HeaderLine ["Timestamp"; "a"; "b"]%string;
      DataLine [VStr "new"; VStr "x"; VStr "y"]].
Proof.
  apply (save_to_csv_puts_timestamp_first
           {| nrows := 1;
              columns := [("a"%string, [VStr "x"]);
                          ("Timestamp"%string, [VStr "old"]);
                          ("b"%string, [VStr "y"])] |} "new" None).
  repeat constructor; simpl; intuition discriminate.
Defined.

(** X16.  Saving the records of a scrape: a new file gets the header
    Timestamp, Name, PriceUSD, Change24h_Percent, MarketCapUSD, and in
    either case the records follow in their order, one line each, the time
    of the call first. *)
Theorem scraped_records_are_saved_in_order data now file :
  data <> [] ->
  save_to_csv (DataFrame data) now file =
  Ok ((match file with
       | None => [HeaderLine ["Timestamp"; "Name"; "PriceUSD";
                              "Change24h_Percent"; "MarketCapUSD"]%string]
       | Some old => old
       end)
        ++ map (fun r => DataLine [VStr now; VStr (Name r); VNum (PriceUSD r);
                                   VNum (Change24h_Percent r);
                                   VNum (MarketCapUSD r)])
               data).
Proof.
  intros Hne.
  assert (N : NoDup (labels (DataFrame data))).
  { destruct data; [congruence|]. unfold labels. simpl.
    repeat constructor; simpl; intuition discriminate. }
  rewrite (save_to_csv_stamped _ now file N). unfold to_csv.
  assert (R : rows_of (stamped (DataFrame data) now) =
              map (fun r => [VStr now; VStr (Name r); VNum (PriceUSD r);
                             VNum (Change24h_Percent r); VNum (MarketCapUSD r)])
                  data).
  { destruct data as [|r0 data0]; [congruence|].
    set (data := r0 :: data0). unfold rows_of, stamped.
    change (nrows (DataFrame data)) with (List.length data).
    cbn [nrows columns]. change (columns (DataFrame data)) with
      [ ("Name"%string, map (fun r => VStr (Name r)) data);
        ("PriceUSD"%string, map (fun r => VNum (PriceUSD r)) data);
        ("Change24h_Percent"%string, map (fun r => VNum (Change24h_Percent r)) data);
        ("MarketCapUSD"%string, map (fun r => VNum (MarketCapUSD r)) data) ].
    cbn [filter fst String.eqb Ascii.eqb Bool.eqb negb andb map snd].
    apply map_seq_nth. intros i r Hi.
    assert (Li : (i < List.length data)%nat)
      by (apply nth_error_Some; congruence).
    rewrite (nth_repeat_in _ _ _ _ Li).
    assert (M : forall (g : record -> value),
               nth i (map g data) (VNum None) = g r).
    { intros g. apply nth_error_nth. rewrite nth_error_map, Hi. reflexivity. }
    rewrite !M. reflexivity. }
  rewrite R, map_map.
  destruct file; [reflexivity|].
  destruct data; [congruence|]. reflexivity.
Qed.

(** One record saved to a new file. *)
Lemma scraped_records_are_saved_in_order_witness :
  save_to_csv
    (DataFrame [ {| Name := "BTC"; PriceUSD := Some 1%float;
                    Change24h_Percent := None;
                    MarketCapUSD := Some 2%float |} ])
    "2025-01-01 00:00:00" None =
  Ok [ HeaderLine ["Timestamp"; "Name"; "PriceUSD"; "Change24h_Percent";
                   "MarketCapUSD"]%string;
       DataLine [VStr "2025-01-01 00:00:00"; VStr "BTC"; VNum (Some 1%float);
                 VNum None; VNum (Some 2%float)] ].
Proof.
  apply (scraped_records_are_saved_in_order
           [ {| Name := "BTC"; PriceUSD := Some 1%float;
                Change24h_Percent := None;
                MarketCapUSD := Some 2%float |} ]
           "2025-01-01 00:00:00" None).
  discriminate.
Defined.

(** ** [clean_numeric_text]: characters that no number has *)

Section Foreign.

Variable c : ascii.
Hypothesis Hc : foreign c = true.

Lemma foreign_facts :
  is_digit c = false /\ is_space c = false /\ is_c_space c = false /\
  (forall d, In d (list_ascii_of_string ".+-_eE$,%TBM") -> Ascii.eqb d c = false) /\
  (forall d, In d (list_ascii_of_string "infaty") -> Ascii.eqb d (lower c) = false).
Proof.
  revert Hc. destruct c as [[] [] [] [] [] [] [] []]; intros H;
    try discriminate H; (repeat split; try reflexivity);
    intros d Hd; simpl in Hd;
    repeat (destruct Hd as [<- | Hd]; [reflexivity|]); destruct Hd.
Qed.

Lemma other_char d : In d (list_ascii_of_string ".+-_eE$,%TBM") -> Ascii.eqb d c = false.
Proof. apply foreign_facts. Qed.

Lemma contains_cons_other a s :
  Ascii.eqb a c = false -> contains c (String a s) = contains c s.
Proof. intros E. simpl. rewrite E. reflexivity. Qed.

Lemma contains_remove_other d s :
  Ascii.eqb d c = false -> contains c (remove d s) = contains c s.
Proof.
  intros E. induction s as [|a s IH]; simpl; [reflexivity|].
  destruct (Ascii.eqb a d) eqn:Ea.
  - apply Ascii.eqb_eq in Ea. subst a. rewrite E. exact IH.
  - simpl. rewrite IH. reflexivity.
Qed.

Lemma contains_lstrip sp s :
  sp c = false -> contains c s = true -> contains c (lstrip sp s) = true.
Proof.
  intros Hs. induction s as [|a s IH]; simpl; [discriminate|].
  destruct (sp a) eqn:Ea; [|simpl; auto].
  destruct (Ascii.eqb a c) eqn:E; [|exact IH].
  apply Ascii.eqb_eq in E. congruence.
Qed.

Lemma contains_rstrip sp s :
  sp c = false -> contains c s = true -> contains c (rstrip sp s) = true.
Proof.
  intros Hs. induction s as [|a s IH]; simpl; [discriminate|].
  destruct (Ascii.eqb a c) eqn:E.
  - intros _. apply Ascii.eqb_eq in E. subst a.
    destruct (rstrip sp s); [rewrite Hs|]; simpl; rewrite Ascii.eqb_refl;
      reflexivity.
  - intros H. specialize (IH H).
    destruct (rstrip sp s) as [|b r]; [discriminate IH|].
    simpl. rewrite E. exact IH.
Qed.

Lemma strip_underscores_step prev a s u :
  strip_underscores prev (String a s) = Some u ->
  (a = "_"%char /\ strip_underscores (Some a) s = Some u) \/
  (exists u', u = String a u' /\ strip_underscores (Some a) s = Some u').
Proof.
  simpl. destruct (Ascii.eqb a "_") eqn:E.
  - apply Ascii.eqb_eq in E. subst a.
    destruct prev as [p|]; [|discriminate].
    destruct (is_digit p); [|discriminate]. auto.
  - intros H. right.
    assert (R : option_map (String a) (strip_underscores (Some a) s) = Some u).
    { destruct prev as [p|]; [|exact H].
      destruct p as [[] [] [] [] [] [] [] []]; try exact H.
      destruct (is_digit a); [exact H | discriminate H]. }
    destruct (strip_underscores (Some a) s) as [u'|]; [|discriminate R].
    injection R as <-. eauto.
Qed.

Lemma contains_strip_underscores s : forall prev u,
  strip_underscores prev s = Some u ->
  contains c s = true -> contains c u = true.
Proof.
  induction s as [|a s IH]; intros prev u H; [discriminate|].
  destruct (strip_underscores_step prev a s u H) as [(-> & H') | (u' & -> & H')].
  - rewrite contains_cons_other by (apply other_char; simpl; tauto).
    apply (IH _ _ H').
  - simpl. destruct (Ascii.eqb a c); [reflexivity|]. apply (IH _ _ H').
Qed.

Lemma read_sign_cases a s :
  ((a = "-"%char \/ a = "+"%char) /\ snd (read_sign (String a s)) = s) \/
  snd (read_sign (String a s)) = String a s.
Proof.
  destruct a as [[] [] [] [] [] [] [] []]; simpl; auto.
Qed.

Lemma contains_read_sign s :
  contains c s = true -> contains c (snd (read_sign s)) = true.
Proof.
  destruct s as [|a s]; [discriminate|].
  destruct (read_sign_cases a s) as [(Ha & ->) | ->]; [|auto].
  rewrite contains_cons_other; [auto|].
  destruct Ha as [-> | ->]; apply other_char; simpl; tauto.
Qed.

Lemma contains_read_digits s : forall acc n,
  contains c s = true ->
  contains c (snd (read_digits s acc n)) = true.
Proof.
  induction s as [|a s IH]; intros acc n H; [discriminate|].
  simpl. destruct (digit_of a) as [d|] eqn:D; [|exact H].
  apply IH. simpl in H. destruct (Ascii.eqb a c) eqn:E; [|exact H].
  apply Ascii.eqb_eq in E. subst a.
  destruct foreign_facts as (F & _). unfold is_digit in F. rewrite D in F.
  discriminate.
Qed.

Lemma point_cases a t (m1 : Z) :
  (a = "."%char) \/
  match String a t with
  | String "." u => read_digits u m1 0
  | _ => (m1, 0%Z, String a t)
  end = (m1, 0%Z, String a t).
Proof.
  destruct a as [[] [] [] [] [] [] [] []]; auto.
Qed.

Lemma contains_read_exponent s :
  contains c s = true -> contains c (snd (read_exponent s)) = true.
Proof.
  destruct s as [|ch s1]; [discriminate|]. intros H. unfold read_exponent.
  destruct (Ascii.eqb ch "e" || Ascii.eqb ch "E") eqn:E; [|exact H].
  assert (H1 : contains c s1 = true).
  { rewrite contains_cons_other in H; [exact H|].
    apply orb_true_iff in E. destruct E as [E | E];
      apply Ascii.eqb_eq in E; subst ch; apply other_char; simpl; tauto. }
  pose proof (contains_read_sign s1 H1) as H2.
  destruct (read_sign s1) as [neg s2]. cbn [snd] in H2.
  pose proof (contains_read_digits s2 0 0 H2) as H3.
  destruct (read_digits s2 0 0) as [[e n] s3]. cbn [snd] in H3.
  destruct (n =? 0)%Z; [exact H | exact H3].
Qed.

Lemma parse_decimal_foreign body :
  contains c body = true -> parse_decimal body = None.
Proof.
  intros H. unfold parse_decimal.
  pose proof (contains_read_digits body 0 0 H) as H1.
  destruct (read_digits body 0 0) as [[m1 n1] s1]. cbn [snd] in H1.
  assert (H2 : contains c
                 (snd (match s1 with
                       | String "." t => read_digits t m1 0
                       | _ => (m1, 0%Z, s1)
                       end)) = true).
  { destruct s1 as [|a t]; [discriminate H1|].
    destruct (point_cases a t m1) as [-> | P].
    - apply contains_read_digits.
      rewrite contains_cons_other in H1; [exact H1|].
      apply other_char. simpl. tauto.
    - rewrite P. exact H1. }
  destruct (match s1 with
            | String "." t => read_digits t m1 0
            | _ => (m1, 0%Z, s1)
            end) as [[m2 n2] s2]. cbn [snd] in H2.
  destruct (n1 + n2 =? 0)%Z; [reflexivity|].
  pose proof (contains_read_exponent s2 H2) as H3.
  destruct (read_exponent s2) as [e s3]. cbn [snd] in H3.
  destruct s3; [discriminate H3 | reflexivity].
Qed.

Lemma contains_lower s :
  contains c s = true -> contains (lower c) (lower_string s) = true.
Proof.
  induction s as [|a s IH]; simpl; [discriminate|].
  destruct (Ascii.eqb a c) eqn:E.
  - apply Ascii.eqb_eq in E. subst a. rewrite Ascii.eqb_refl. reflexivity.
  - intros H. rewrite (IH H). destruct (Ascii.eqb (lower a) (lower c)); reflexivity.
Qed.

Lemma parse_inf_or_nan_foreign body :
  contains c body = true -> parse_inf_or_nan body = None.
Proof.
  intros H. apply contains_lower in H. unfold parse_inf_or_nan.
  destruct foreign_facts as (_ & _ & _ & _ & L).
  assert (W : forall w,
             (forall d, In d (list_ascii_of_string w) ->
                        In d (list_ascii_of_string "infaty")) ->
             String.eqb (lower_string body) w = false).
  { intros w Hw. destruct (String.eqb (lower_string body) w) eqn:E; [|reflexivity].
    apply String.eqb_eq in E. rewrite E in H. exfalso.
    clear E. induction w as [|a w IH]; [discriminate H|].
    simpl in H. rewrite (L a) in H by (apply Hw; left; reflexivity).
    apply IH; [exact H|]. intros d Hd. apply Hw. right. exact Hd. }
  rewrite !W; [reflexivity | | |]; intros d Hd; simpl in Hd |- *; intuition.
Qed.

(** [float] rejects a text with a foreign character. *)
Lemma float_of_str_foreign s :
  contains c s = true -> float_of_str s = Raise ValueError.
Proof.
  intros H. unfold float_of_str.
  destruct foreign_facts as (_ & _ & Fs & _).
  assert (U : forall u,
             (if contains "_" s then strip_underscores None s else Some s) = Some u ->
             contains c u = true).
  { intros u. destruct (contains "_" s).
    - intros E. exact (contains_strip_underscores s None u E H).
    - intros E. injection E as <-. exact H. }
  destruct (if contains "_" s then strip_underscores None s else Some s) as [u|];
    [|reflexivity].
  pose proof (contains_rstrip is_c_space _ Fs
                (contains_lstrip is_c_space u Fs (U u eq_refl))) as H1.
  apply contains_read_sign in H1.
  destruct (read_sign (rstrip is_c_space (lstrip is_c_space u))) as [neg body].
  cbn [snd] in H1.
  rewrite (parse_decimal_foreign body H1), (parse_inf_or_nan_foreign body H1).
  reflexivity.
Qed.

Lemma clean_numeric_text_foreign_char s :
  contains c s = true -> clean_numeric_text (PyStr s) = Ok None.
Proof.
  intros H. rewrite clean_numeric_text_scaled.
  destruct foreign_facts as (_ & Fs & _).
  assert (H1 : contains c (strip_symbols s) = true).
  { unfold strip_symbols, strip.
    apply contains_rstrip; [exact Fs|]. apply contains_lstrip; [exact Fs|].
    rewrite !contains_remove_other; [exact H | | |];
      apply other_char; simpl; tauto. }
  assert (H2 : contains c (snd (split_multiplier (strip_symbols s))) = true).
  { unfold split_multiplier.
    destruct (contains "T" (strip_symbols s));
      [cbn [snd]; rewrite contains_remove_other;
       [exact H1 | apply other_char; simpl; tauto]|].
    destruct (contains "B" (strip_symbols s));
      [cbn [snd]; rewrite contains_remove_other;
       [exact H1 | apply other_char; simpl; tauto]|].
    destruct (contains "M" (strip_symbols s));
      [cbn [snd]; rewrite contains_remove_other;
       [exact H1 | apply other_char; simpl; tauto]|].
    exact H1. }
  unfold scaled. rewrite (float_of_str_foreign _ H2). reflexivity.
Qed.

End Foreign.

(** X17.  A text with a character that no number has and that the cleaning
    does not remove (a "K", a lower-case "b" or "m", a "/", the letters of
    "USD", ...) is never read as a number: [clean_numeric_text] returns
    [None], wherever the character stands. *)
Theorem clean_numeric_text_rejects_foreign c s :
  foreign c = true -> contains c s = true ->
  clean_numeric_text (PyStr s) = Ok None.
Proof. intros Hc H. exact (clean_numeric_text_foreign_char c Hc s H). Qed.

(** "$1.2K": thousands are not a suffix the function knows. *)
Lemma clean_numeric_text_rejects_foreign_witness :
  clean_numeric_text (PyStr "$1.2K") = Ok None.
Proof.
  apply (clean_numeric_text_rejects_foreign "K" "$1.2K"); reflexivity.
Defined.
